(** * ignition.service.lifecycle: a shallow embedding and its properties

    The lifecycle services of [ignition/service/lifecycle.py] are embedded as
    computations in a state-and-exception monad over a [world] that holds the
    scripts workspace (a filesystem), the entropy consumed by [uuid.uuid4],
    the state of the driver, and the ordered log of every call that crosses a
    boundary of the module (filesystem, driver, job queue, postal service).

    Modelling assumptions, fixed once:
    - paths are keys of one flat filesystem map; the workspace root exists and
      is writable, so the only filesystem errors are those of an entry of the
      wrong kind (a directory where a file is expected and conversely);
    - the Python standard library functions the module calls
      ([base64.b64decode], [zipfile.is_zipfile], [zipfile.ZipFile],
      [json.dumps]) are the methods of the class [PyLib]: every theorem holds
      whatever they compute;
    - the driver is an object with two methods that act on a state of its own
      (and, for [execute_lifecycle], on the filesystem, where it reads the
      scripts and may remove them);
    - the job queue and the postal service are external: [queue_job] and
      [post] record their argument in the log and return. *)

From stdpp Require Import gmap strings list.
From Stdlib Require Import Strings.Byte Strings.Ascii.

Open Scope string_scope.

(** ** Python values and exceptions *)

Definition bytes := list byte.

(** The values that travel through the module untyped: request ids,
    deployment locations, property maps, the async flag. *)
Inductive pyval :=
| PyNone
| PyBool (b : bool)
| PyStr (s : string)
| PyDict (d : gmap string string).

Global Instance pyval_eq_dec : EqDecision pyval.
Proof. solve_decision. Defined.

(** [v is None] *)
Definition is_None (v : pyval) : bool :=
  match v with PyNone => true | _ => false end.

(** [v is True]: identity with the singleton [True]. *)
Definition is_True (v : pyval) : bool :=
  match v with PyBool true => true | _ => false end.

Inductive exn :=
| ValueError (msg : string)
| binascii_Error (msg : string)   (* class Error(ValueError) in binascii *)
| BadZipFile (msg : string)
| OSError (msg : string)
| AttributeError (msg : string)
| KeyError (key : string)
| DriverError (msg : string).

(** [isinstance(e, ValueError)]: [binascii.Error] derives from [ValueError]. *)
Definition is_ValueError (e : exn) : bool :=
  match e with
  | ValueError _ | binascii_Error _ => true
  | _ => false
  end.

Inductive result (A : Type) :=
| Ok (a : A)
| Raise (e : exn).
Arguments Ok {A} a.
Arguments Raise {A} e.

(** ** The data model of [ignition.model.lifecycle], [ignition.service.messaging]
       and [ignition.utils.file] *)

(** Modelled from the spec: [ignition.model.lifecycle.STATUS_COMPLETE] and
    [STATUS_FAILED] are imported by the module and not defined in it; the spec
    names the terminal statuses COMPLETE and FAILED. *)
Definition STATUS_COMPLETE : string := "COMPLETE".
Definition STATUS_FAILED : string := "FAILED".
Definition STATUS_IN_PROGRESS : string := "IN_PROGRESS".
Definition STATUS_NOT_STARTED : string := "NOT_STARTED".

(** Modelled from the spec: [ignition.model.lifecycle.LifecycleExecution], the
    spec's ExecutionStatus {requestId, status, outputs, failureDetail}. The
    status is a Python string: nothing confines it to the four named values. *)
Record LifecycleExecution := {
  le_request_id : string;
  le_status : string;
  le_outputs : gmap string string;
  le_failure_detail : option string
}.

(** Modelled from the spec: [ignition.model.lifecycle.LifecycleExecuteResponse],
    the spec's ExecutionAck {requestId}. *)
Record LifecycleExecuteResponse := {
  ack_request_id : pyval
}.

(** Modelled from the spec: [ignition.model.lifecycle.lifecycle_execution_dict],
    the flattened projection of the record with the fixed field set requestId,
    status, outputs, failureDetail. *)
Definition lifecycle_execution_dict (e : LifecycleExecution) : gmap string pyval :=
  <["requestId" := PyStr (le_request_id e)]>
  (<["status" := PyStr (le_status e)]>
  (<["outputs" := PyDict (le_outputs e)]>
  (<["failureDetail" := from_option PyStr PyNone (le_failure_detail e)]> ∅))).

(** Modelled from the spec: [ignition.service.messaging.Message] and
    [Envelope], a serialized payload and its destination topic. *)
Record Message := { content : string }.
Record Envelope := { address : string; message : Message }.

(** Modelled from the spec: [ignition.utils.file.DirectoryTree], a handle on
    the root path of an extracted tree. *)
Record DirectoryTree := { root_path : string }.

(** ** The world *)

Inductive fs_entry :=
| File (data : bytes)
| Dir (members : gmap string bytes).

(** Calls that cross a boundary of the module, in the order they happen. *)
Inductive event :=
| Uuid4 (s : string)
| OsRemove (path : string)
| ShutilRmtree (path : string)
| OpenWb (path : string)
| FileWrite (path : string) (data : bytes)
| ExtractAll (archive : string) (path : string)
| DriverExecute (lifecycle_name : string) (tree : DirectoryTree)
    (system_properties properties deployment_location : pyval)
| DriverGet (request_id deployment_location : pyval)
| QueueJob (job_definition : gmap string pyval)
| PostalPost (envelope : Envelope).

Definition is_fs_event (ev : event) : bool :=
  match ev with
  | OsRemove _ | ShutilRmtree _ | OpenWb _ | FileWrite _ _ | ExtractAll _ _ => true
  | _ => false
  end.

Definition queued_job (ev : event) : option (gmap string pyval) :=
  match ev with QueueJob jd => Some jd | _ => None end.
Definition posted_envelope (ev : event) : option Envelope :=
  match ev with PostalPost env => Some env | _ => None end.
Definition is_driver_event (ev : event) : bool :=
  match ev with DriverExecute _ _ _ _ _ | DriverGet _ _ => true | _ => false end.

(** The jobs handed to the job queue, the envelopes handed to the postal
    service and the calls made to the driver, read off a log. *)
Definition queued_jobs (tr : list event) : list (gmap string pyval) :=
  omap queued_job tr.
Definition posted (tr : list event) : list Envelope :=
  omap posted_envelope tr.
Definition driver_calls (tr : list event) : list event :=
  filter (fun ev => is_driver_event ev = true) tr.

(** [DS] is the type of the state of the driver. *)
Record world (DS : Type) := {
  fs : gmap string fs_entry;
  uuids : nat -> string;
  driver_state : DS;
  trace : list event
}.
Arguments fs {DS} w.
Arguments uuids {DS} w.
Arguments driver_state {DS} w.
Arguments trace {DS} w.

(** ** The monad: state that survives an exception *)

Definition M (DS A : Type) : Type := world DS -> result A * world DS.

Definition ret {DS A} (a : A) : M DS A := fun w => (Ok a, w).
Definition raise {DS A} (e : exn) : M DS A := fun w => (Raise e, w).
Definition bind {DS A B} (m : M DS A) (f : A -> M DS B) : M DS B :=
  fun w =>
    match m w with
    | (Ok a, w') => f a w'
    | (Raise e, w') => (Raise e, w')
    end.

Notation "'do' x <- m ; k" := (bind m (fun x => k))
  (at level 10, x name, m at level 100, k at level 200).
Notation "'run' m ; k" := (bind m (fun _ => k))
  (at level 10, m at level 100, k at level 200).

Definition get_fs {DS} : M DS (gmap string fs_entry) := fun w => (Ok (fs w), w).
Definition put_fs {DS} (f : gmap string fs_entry) : M DS unit :=
  fun w => (Ok tt, {| fs := f; uuids := uuids w;
                      driver_state := driver_state w; trace := trace w |}).
Definition log {DS} (ev : event) : M DS unit :=
  fun w => (Ok tt, {| fs := fs w; uuids := uuids w;
                      driver_state := driver_state w; trace := (trace w ++ [ev])%list |}).

(** ** The Python standard library, as far as the module calls it *)

Class PyLib := {
  (** [base64.b64decode(s)]: the decoded bytes, or [binascii.Error]. *)
  b64decode : string -> option bytes;
  (** [zipfile.is_zipfile] on the contents of a file. *)
  is_zipfile : bytes -> bool;
  (** [zipfile.ZipFile(path, 'r')] on the contents of a file: the members of
      the archive, or the exception of the constructor. *)
  ZipFile : bytes -> result (gmap string bytes);
  (** [json.dumps], behind [JsonContent(...).get()]. *)
  json_dumps : gmap string pyval -> string
}.

(** ** os, shutil, zipfile and uuid on the world *)

Definition startswith (s p : string) : bool := String.prefix p s.
Definition endswith (s p : string) : bool :=
  String.prefix (String.rev p) (String.rev s).

(** [os.path.join(a, b)] of posixpath. *)
Definition os_path_join (a b : string) : string :=
  if startswith b "/" then b
  else if bool_decide (a = "") || endswith a "/" then a ++ b
  else a ++ "/" ++ b.

Definition os_path_exists {DS} (path : string) : M DS bool :=
  do f <- get_fs;
  ret (bool_decide (is_Some (f !! path))).

Definition os_remove {DS} (path : string) : M DS unit :=
  do f <- get_fs;
  match f !! path with
  | Some (File _) => run log (OsRemove path); put_fs (delete path f)
  | Some (Dir _) => raise (OSError "IsADirectoryError")
  | None => raise (OSError "FileNotFoundError")
  end.

Definition shutil_rmtree {DS} (path : string) : M DS unit :=
  do f <- get_fs;
  match f !! path with
  | Some (Dir _) => run log (ShutilRmtree path); put_fs (delete path f)
  | Some (File _) => raise (OSError "NotADirectoryError")
  | None => raise (OSError "FileNotFoundError")
  end.

(** [open(path, 'wb')]: the file is created, or truncated, at once. *)
Definition open_wb {DS} (path : string) : M DS unit :=
  do f <- get_fs;
  match f !! path with
  | Some (Dir _) => raise (OSError "IsADirectoryError")
  | _ => run log (OpenWb path); put_fs (<[path := File []]> f)
  end.

Definition file_write {DS} (path : string) (data : bytes) : M DS unit :=
  do f <- get_fs;
  match f !! path with
  | Some (File old) => run log (FileWrite path data); put_fs (<[path := File (old ++ data)%list]> f)
  | _ => raise (OSError "file not open")
  end.

(** [zipfile.is_zipfile(path)]: [False] as well when the path cannot be read. *)
Definition zipfile_is_zipfile {DS} `{PyLib} (path : string) : M DS bool :=
  do f <- get_fs;
  match f !! path with
  | Some (File data) => ret (is_zipfile data)
  | _ => ret false
  end.

Definition zipfile_ZipFile {DS} `{PyLib} (path : string) : M DS (gmap string bytes) :=
  do f <- get_fs;
  match f !! path with
  | Some (File data) =>
      match ZipFile data with
      | Ok members => ret members
      | Raise e => raise e
      end
  | Some (Dir _) => raise (OSError "IsADirectoryError")
  | None => raise (OSError "FileNotFoundError")
  end.

(** [ZipFile.extractall(path)]: every member is written below [path], over
    what is there; the directory itself is made with the first member, so an
    archive without members makes nothing. *)
Definition extractall {DS} (archive : string) (members : gmap string bytes)
    (path : string) : M DS unit :=
  run log (ExtractAll archive path);
  if bool_decide (members = ∅) then ret tt
  else
    do f <- get_fs;
    match f !! path with
    | Some (File _) => raise (OSError "NotADirectoryError")
    | Some (Dir old) => put_fs (<[path := Dir (members ∪ old)]> f)
    | None => put_fs (<[path := Dir members]> f)
    end.

(** [str(uuid.uuid4())]: the next draw of the entropy of the world. *)
Definition uuid4 {DS} : M DS string :=
  fun w => (Ok (uuids w 0),
            {| fs := fs w; uuids := fun n => uuids w (S n);
               driver_state := driver_state w;
               trace := (trace w ++ [Uuid4 (uuids w 0)])%list |}).

(** ** Collaborators outside the module *)

(** [LifecycleDriverCapability]: the two methods of a driver. A method acts on
    the state of the driver and may raise; [execute_lifecycle] is handed the
    scripts tree, so it also acts on the filesystem. *)
Record LifecycleDriverCapability (DS : Type) := {
  driver_execute_lifecycle :
    string -> DirectoryTree -> pyval -> pyval -> pyval ->
    DS -> gmap string fs_entry ->
    result LifecycleExecuteResponse * DS * gmap string fs_entry;
  driver_get_lifecycle_execution :
    pyval -> pyval -> DS -> result LifecycleExecution * DS
}.
Arguments driver_execute_lifecycle {DS} _.
Arguments driver_get_lifecycle_execution {DS} _.

Inductive PostalService := postal_service_object.
Inductive JobQueueService := job_queue_service_object.

(** [postal_service.post(envelope)] *)
Definition post {DS} (self : PostalService) (envelope : Envelope) : M DS unit :=
  log (PostalPost envelope).

(** [job_queue_service.queue_job(job_definition)] *)
Definition queue_job {DS} (self : JobQueueService)
    (job_definition : gmap string pyval) : M DS unit :=
  log (QueueJob job_definition).

(** [driver.get_lifecycle_execution(request_id, deployment_location)] *)
Definition call_get_lifecycle_execution {DS} (d : LifecycleDriverCapability DS)
    (request_id deployment_location : pyval) : M DS LifecycleExecution :=
  run log (DriverGet request_id deployment_location);
  fun w =>
    let '(r, ds) := driver_get_lifecycle_execution d request_id
                      deployment_location (driver_state w) in
    (r, {| fs := fs w; uuids := uuids w; driver_state := ds; trace := trace w |}).

(** [driver.execute_lifecycle(...)] *)
Definition call_execute_lifecycle {DS} (d : LifecycleDriverCapability DS)
    (lifecycle_name : string) (tree : DirectoryTree)
    (system_properties properties deployment_location : pyval)
    : M DS LifecycleExecuteResponse :=
  run log (DriverExecute lifecycle_name tree system_properties properties
             deployment_location);
  fun w =>
    let '(r, ds, f) := driver_execute_lifecycle d lifecycle_name tree
                         system_properties properties deployment_location
                         (driver_state w) (fs w) in
    (r, {| fs := f; uuids := uuids w; driver_state := ds; trace := trace w |}).

(** ** The services of the module *)

(** class LifecycleProperties *)
Record LifecycleProperties := {
  async_messaging_enabled : pyval;
  scripts_workspace : string
}.
Definition LifecycleProperties_init : LifecycleProperties :=
  {| async_messaging_enabled := PyBool true;
     scripts_workspace := "./scripts_workspace" |}.

Definition LIFECYCLE_EXECUTION_MONITOR_JOB_TYPE : string :=
  "LifecycleExecutionMonitoring".

(** class LifecycleMessagingService *)
Record LifecycleMessagingService := {
  postal_service : PostalService;
  lifecycle_execution_events_topic : string
}.

(** class LifecycleScriptFileManagerService *)
Record LifecycleScriptFileManagerService := {
  fm_scripts_workspace : string
}.

(** class LifecycleExecutionMonitoringService *)
Record LifecycleExecutionMonitoringService (DS : Type) := {
  job_queue_service : JobQueueService;
  lifecycle_messaging_service : LifecycleMessagingService;
  monitor_driver : LifecycleDriverCapability DS
}.
Arguments job_queue_service {DS} _.
Arguments lifecycle_messaging_service {DS} _.
Arguments monitor_driver {DS} _.

(** class LifecycleService; [lifecycle_monitor_service] is [None] when the
    attribute was never set. *)
Record LifecycleService (DS : Type) := {
  driver : LifecycleDriverCapability DS;
  script_file_manager : LifecycleScriptFileManagerService;
  async_enabled : pyval;
  lifecycle_monitor_service : option (LifecycleExecutionMonitoringService DS)
}.
Arguments driver {DS} _.
Arguments script_file_manager {DS} _.
Arguments async_enabled {DS} _.
Arguments lifecycle_monitor_service {DS} _.

(** The keyword arguments of [LifecycleService.__init__]; [None] is a keyword
    that was not passed. *)
Record LifecycleService_kwargs (DS : Type) := {
  kw_driver : option (LifecycleDriverCapability DS);
  kw_lifecycle_config : option LifecycleProperties;
  kw_script_file_manager : option LifecycleScriptFileManagerService;
  kw_lifecycle_monitor_service : option (LifecycleExecutionMonitoringService DS)
}.
Arguments kw_driver {DS} _.
Arguments kw_lifecycle_config {DS} _.
Arguments kw_script_file_manager {DS} _.
Arguments kw_lifecycle_monitor_service {DS} _.

Section Services.

Context {DS : Type} `{PyLib}.

(** *** LifecycleMessagingService *)

Definition send_lifecycle_execution (self : LifecycleMessagingService)
    (lifecycle_execution : option LifecycleExecution) : M DS unit :=
  match lifecycle_execution with
  | None =>
      raise (ValueError
        "lifecycle_execution must be set to send an lifecycle execution event")
  | Some lifecycle_execution =>
      let lifecycle_execution_message_content :=
        lifecycle_execution_dict lifecycle_execution in
      let message_str := json_dumps lifecycle_execution_message_content in
      post (postal_service self)
        {| address := lifecycle_execution_events_topic self;
           message := {| content := message_str |} |}
  end.

(** *** LifecycleExecutionMonitoringService *)

(** ['k' not in job_definition or job_definition['k'] is None] *)
Definition key_missing (job_definition : gmap string pyval) (k : string) : bool :=
  match job_definition !! k with
  | None => true
  | Some v => is_None v
  end.

(** [job_definition['k']] *)
Definition getitem (job_definition : gmap string pyval) (k : string) : M DS pyval :=
  match job_definition !! k with
  | Some v => ret v
  | None => raise (KeyError k)
  end.

Definition job_handler (self : LifecycleExecutionMonitoringService DS)
    (job_definition : gmap string pyval) : M DS bool :=
  if key_missing job_definition "request_id" then ret true
  else if key_missing job_definition "deployment_location" then ret true
  else
    do request_id <- getitem job_definition "request_id";
    do deployment_location <- getitem job_definition "deployment_location";
    do lifecycle_execution_task <-
      call_get_lifecycle_execution (monitor_driver self) request_id
        deployment_location;
    let status := le_status lifecycle_execution_task in
    if bool_decide (status ∈ [STATUS_COMPLETE; STATUS_FAILED]) then
      run send_lifecycle_execution (lifecycle_messaging_service self)
            (Some lifecycle_execution_task);
      ret true
    else ret false.

Definition __create_job_definition (request_id deployment_location : pyval)
    : gmap string pyval :=
  <["job_type" := PyStr LIFECYCLE_EXECUTION_MONITOR_JOB_TYPE]>
  (<["request_id" := request_id]>
  (<["deployment_location" := deployment_location]> ∅)).

Definition monitor_execution (self : LifecycleExecutionMonitoringService DS)
    (request_id deployment_location : pyval) : M DS unit :=
  if is_None request_id then
    raise (ValueError "Cannot monitor task when request_id is not given")
  else if is_None deployment_location then
    raise (ValueError "Cannot monitor task when deployment_location is not given")
  else
    queue_job (job_queue_service self)
      (__create_job_definition request_id deployment_location).

(** *** LifecycleScriptFileManagerService *)

Definition __determine_package_path (self : LifecycleScriptFileManagerService)
    (tree_name : string) : string :=
  os_path_join (fm_scripts_workspace self) (tree_name ++ ".zip").

Definition __determine_extracted_path (self : LifecycleScriptFileManagerService)
    (tree_name : string) : string :=
  os_path_join (fm_scripts_workspace self) tree_name.

Definition __clear_existing_files (self : LifecycleScriptFileManagerService)
    (tree_name : string) : M DS unit :=
  let package_write_path := __determine_package_path self tree_name in
  do package_exists <- os_path_exists package_write_path;
  run (if package_exists then os_remove package_write_path else ret tt);
  let extracted_path := __determine_extracted_path self tree_name in
  do extracted_exists <- os_path_exists extracted_path;
  if extracted_exists then shutil_rmtree extracted_path else ret tt.

(** The file is opened, and so created empty, before the payload is decoded. *)
Definition __write_scripts_to_disk (self : LifecycleScriptFileManagerService)
    (tree_name lifecycle_scripts : string) : M DS string :=
  let package_write_path := __determine_package_path self tree_name in
  run open_wb package_write_path;
  match b64decode lifecycle_scripts with
  | None => raise (binascii_Error "Incorrect padding")
  | Some decoded =>
      run file_write package_write_path decoded;
      ret package_write_path
  end.

Definition __extract_scripts (self : LifecycleScriptFileManagerService)
    (tree_name package_path : string) : M DS string :=
  do valid <- zipfile_is_zipfile package_path;
  if negb valid then
    raise (ValueError
      "lifecycle_scripts should include binary contents of a zip file")
  else
    let extracted_path := __determine_extracted_path self tree_name in
    do package_zip <- zipfile_ZipFile package_path;
    run extractall package_path package_zip extracted_path;
    ret extracted_path.

Definition build_tree (self : LifecycleScriptFileManagerService)
    (tree_name lifecycle_scripts : string) : M DS DirectoryTree :=
  run __clear_existing_files self tree_name;
  do package_path <- __write_scripts_to_disk self tree_name lifecycle_scripts;
  do extracted_path <- __extract_scripts self tree_name package_path;
  ret {| root_path := extracted_path |}.

(** *** LifecycleService *)

Definition LifecycleService_init (kwargs : LifecycleService_kwargs DS)
    : result (LifecycleService DS) :=
  match kw_driver kwargs with
  | None => Raise (ValueError "driver argument not provided")
  | Some driver =>
  match kw_lifecycle_config kwargs with
  | None => Raise (ValueError "lifecycle_config argument not provided")
  | Some lifecycle_config =>
  match kw_script_file_manager kwargs with
  | None => Raise (ValueError "script_file_manager argument not provided")
  | Some script_file_manager =>
      let async_enabled := async_messaging_enabled lifecycle_config in
      if is_True async_enabled then
        match kw_lifecycle_monitor_service kwargs with
        | None =>
            Raise (ValueError
              "lifecycle_monitor_service argument not provided (required when async_messaging_enabled is True)")
        | Some monitor =>
            Ok {| driver := driver; script_file_manager := script_file_manager;
                  async_enabled := async_enabled;
                  lifecycle_monitor_service := Some monitor |}
        end
      else
        Ok {| driver := driver; script_file_manager := script_file_manager;
              async_enabled := async_enabled;
              lifecycle_monitor_service := None |}
  end end end.

Definition __async_lifecycle_execution_completion (self : LifecycleService DS)
    (request_id deployment_location : pyval) : M DS unit :=
  match lifecycle_monitor_service self with
  | None =>
      raise (AttributeError
        "'LifecycleService' object has no attribute 'lifecycle_monitor_service'")
  | Some monitor => monitor_execution monitor request_id deployment_location
  end.

Definition execute_lifecycle (self : LifecycleService DS)
    (lifecycle_name lifecycle_scripts : string)
    (system_properties properties deployment_location : pyval)
    : M DS LifecycleExecuteResponse :=
  do file_name <- uuid4;
  do lifecycle_scripts_tree <-
    build_tree (script_file_manager self) file_name lifecycle_scripts;
  do execute_response <-
    call_execute_lifecycle (driver self) lifecycle_name lifecycle_scripts_tree
      system_properties properties deployment_location;
  run (if is_True (async_enabled self) then
         __async_lifecycle_execution_completion self
           (ack_request_id execute_response) deployment_location
       else ret tt);
  ret execute_response.

End Services.

(** ** Worlds that differ by a suffix of the log, for the statements *)

Definition add_events {DS} (w : world DS) (evs : list event) : world DS :=
  {| fs := fs w; uuids := uuids w; driver_state := driver_state w;
     trace := (trace w ++ evs)%list |}.

Definition set_driver_state {DS} (w : world DS) (ds : DS) : world DS :=
  {| fs := fs w; uuids := uuids w; driver_state := ds; trace := trace w |}.

(** The envelope that [send_lifecycle_execution] hands to the postal service
    for the record [e]. *)
Definition envelope_of `{PyLib} (m : LifecycleMessagingService) (e : LifecycleExecution)
    : Envelope :=
  {| address := lifecycle_execution_events_topic m;
     message := {| content := json_dumps (lifecycle_execution_dict e) |} |}.

(** The directory tree found at [path]: empty when there is no directory. *)
Definition tree_at (f : gmap string fs_entry) (path : string) : gmap string bytes :=
  match f !! path with
  | Some (Dir members) => members
  | _ => ∅
  end.

Definition is_Dir (o : option fs_entry) : bool :=
  match o with Some (Dir _) => true | _ => false end.
Definition is_File (o : option fs_entry) : bool :=
  match o with Some (File _) => true | _ => false end.

(** The workspace is fit for a tree name when the path of its archive does
    not hold a directory and the path of its tree does not hold a file: then
    no call of [os] or [shutil] in [build_tree] fails. *)
Definition workspace_ok (f : gmap string fs_entry) (package_path extracted_path : string)
    : Prop :=
  is_Dir (f !! package_path) = false /\ is_File (f !! extracted_path) = false.

(** What [__clear_existing_files] removes, in the order it removes it. *)
Definition clear_events (f : gmap string fs_entry) (package_path extracted_path : string)
    : list event :=
  ((if is_File (f !! package_path) then [OsRemove package_path] else []) ++
   (if is_Dir (f !! extracted_path) then [ShutilRmtree extracted_path] else []))%list.

Definition with_fs {DS} (w : world DS) (f : gmap string fs_entry) : world DS :=
  {| fs := f; uuids := uuids w; driver_state := driver_state w; trace := trace w |}.

(** A computation that touches the world only through the filesystem and
    through events that satisfy [P]: the entropy and the state of the driver
    are left alone. *)
Definition only_events {DS A} (P : event -> Prop) (m : M DS A) : Prop :=
  forall w, exists f evs,
    (m w).2 = add_events (with_fs w f) evs /\ Forall P evs.

(** The filesystem once [data] is written at [package_path] and its [members]
    are extracted at [extracted_path], on a filesystem where both were free. *)
Definition fs_after_build (f : gmap string fs_entry)
    (package_path extracted_path : string) (data : bytes)
    (members : gmap string bytes) : gmap string fs_entry :=
  if bool_decide (members = ∅) then <[package_path := File data]> f
  else <[extracted_path := Dir members]> (<[package_path := File data]> f).

(** ** A stub library, a stub driver and a wiring of the services, to run the
       module on concrete inputs *)

Definition bytes_of_string (s : string) : bytes := String.list_byte_of_string s.

(** The stub decoder rejects the payloads that contain a ['!'], the stub
    archive format is a file that starts with "PK" and holds one member. *)
Definition stub_b64decode (s : string) : option bytes :=
  if bool_decide ("!"%char ∈ String.list_ascii_of_string s) then None
  else Some (bytes_of_string s).

Definition stub_is_zipfile (data : bytes) : bool :=
  match data with
  | x50 :: x4b :: _ => true
  | _ => false
  end.

Definition stub_ZipFile (data : bytes) : result (gmap string bytes) :=
  match data with
  | x50 :: x4b :: rest => Ok {[ "install.sh" := rest ]}
  | _ => Raise (BadZipFile "File is not a zip file")
  end.

Definition stub_json_dumps (d : gmap string pyval) : string :=
  match d !! "requestId", d !! "status" with
  | Some (PyStr r), Some (PyStr s) => r ++ ":" ++ s
  | _, _ => ""
  end.

Definition stub_pylib : PyLib :=
  {| b64decode := stub_b64decode; is_zipfile := stub_is_zipfile;
     ZipFile := stub_ZipFile; json_dumps := stub_json_dumps |}.

(** The stub driver accepts every request as "abc" and reports, poll after
    poll, the statuses listed in its state, then IN_PROGRESS. *)
Definition stub_driver : LifecycleDriverCapability (list string) :=
  {| driver_execute_lifecycle := fun _ _ _ _ _ ds f =>
       (Ok {| ack_request_id := PyStr "abc" |}, ds, f);
     driver_get_lifecycle_execution := fun _ _ ds =>
       match ds with
       | [] => (Ok {| le_request_id := "abc"; le_status := STATUS_IN_PROGRESS;
                      le_outputs := ∅; le_failure_detail := None |}, [])
       | s :: ds' => (Ok {| le_request_id := "abc"; le_status := s;
                            le_outputs := ∅; le_failure_detail := None |}, ds')
       end |}.

Definition stub_messaging : LifecycleMessagingService :=
  {| postal_service := postal_service_object;
     lifecycle_execution_events_topic := "lifecycle_execution_events" |}.

Definition stub_monitor : LifecycleExecutionMonitoringService (list string) :=
  {| job_queue_service := job_queue_service_object;
     lifecycle_messaging_service := stub_messaging;
     monitor_driver := stub_driver |}.

Definition stub_file_manager : LifecycleScriptFileManagerService :=
  {| fm_scripts_workspace := scripts_workspace LifecycleProperties_init |}.

Definition stub_service (flag : pyval) : LifecycleService (list string) :=
  {| driver := stub_driver; script_file_manager := stub_file_manager;
     async_enabled := flag;
     lifecycle_monitor_service :=
       if is_True flag then Some stub_monitor else None |}.

Definition stub_world (statuses : list string) : world (list string) :=
  {| fs := ∅; uuids := fun n => String.string_of_list_ascii (replicate (S n) "u"%char);
     driver_state := statuses; trace := [] |}.

Definition stub_location : pyval := PyDict {[ "name" := "dl1" ]}.

Definition stub_job : gmap string pyval :=
  __create_job_definition (PyStr "abc") stub_location.

(** What the stub driver reports for the statuses COMPLETE and PAUSED. *)
Definition complete_record : LifecycleExecution :=
  {| le_request_id := "abc"; le_status := STATUS_COMPLETE;
     le_outputs := ∅; le_failure_detail := None |}.

Definition paused_record : LifecycleExecution :=
  {| le_request_id := "abc"; le_status := "PAUSED";
     le_outputs := ∅; le_failure_detail := None |}.

(** ** The constructors of the monitoring and messaging services *)

(** [job_queue_service.register_job_handler(job_type, handler)]: what the
    constructor of the monitoring service hands to the job queue. *)
Record JobHandlerRegistration (DS : Type) := {
  registered_job_type : string;
  registered_handler : gmap string pyval -> M DS bool
}.
Arguments registered_job_type {DS} _.
Arguments registered_handler {DS} _.

(** The keyword arguments of [LifecycleExecutionMonitoringService.__init__];
    [None] is a keyword that was not passed. *)
Record LifecycleExecutionMonitoringService_kwargs (DS : Type) := {
  mon_kw_job_queue_service : option JobQueueService;
  mon_kw_lifecycle_messaging_service : option LifecycleMessagingService;
  mon_kw_driver : option (LifecycleDriverCapability DS)
}.
Arguments mon_kw_job_queue_service {DS} _.
Arguments mon_kw_lifecycle_messaging_service {DS} _.
Arguments mon_kw_driver {DS} _.

(** The service, and the registration of its [job_handler] with the queue. *)
Definition LifecycleExecutionMonitoringService_init {DS} `{PyLib}
    (kwargs : LifecycleExecutionMonitoringService_kwargs DS)
    : result (LifecycleExecutionMonitoringService DS * JobHandlerRegistration DS) :=
  match mon_kw_job_queue_service kwargs with
  | None => Raise (ValueError "job_queue_service argument not provided")
  | Some job_queue =>
  match mon_kw_lifecycle_messaging_service kwargs with
  | None => Raise (ValueError "lifecycle_messaging_service argument not provided")
  | Some messaging =>
  match mon_kw_driver kwargs with
  | None => Raise (ValueError "driver argument not provided")
  | Some d =>
      let self :=
        {| job_queue_service := job_queue;
           lifecycle_messaging_service := messaging;
           monitor_driver := d |} in
      Ok (self,
          {| registered_job_type := LIFECYCLE_EXECUTION_MONITOR_JOB_TYPE;
             registered_handler := job_handler self |})
  end end end.

(** The topics configuration, as far as [LifecycleMessagingService.__init__]
    reads it: the attribute [lifecycle_execution_events], which may be None. *)
Record TopicsConfiguration := {
  lifecycle_execution_events : option string
}.

Record LifecycleMessagingService_kwargs := {
  msg_kw_postal_service : option PostalService;
  msg_kw_topics_configuration : option TopicsConfiguration
}.

Definition LifecycleMessagingService_init (kwargs : LifecycleMessagingService_kwargs)
    : result LifecycleMessagingService :=
  match msg_kw_postal_service kwargs with
  | None => Raise (ValueError "postal_service argument not provided")
  | Some postal =>
  match msg_kw_topics_configuration kwargs with
  | None => Raise (ValueError "topics_configuration argument not provided")
  | Some topics_configuration =>
      match lifecycle_execution_events topics_configuration with
      | None => Raise (ValueError "lifecycle_execution_events topic must be set")
      | Some topic =>
          Ok {| postal_service := postal;
                lifecycle_execution_events_topic := topic |}
      end
  end end.

(** A computation that leaves every path outside [S] as it was. *)
Definition touches_only {DS A} (S : string -> Prop) (m : M DS A) : Prop :=
  forall w p, ~ S p -> fs (m w).2 !! p = fs w !! p.

(** ** More stand-ins, for the concrete runs *)

(** A library whose [ZipFile] rejects what its [is_zipfile] accepts. *)
Definition strict_pylib : PyLib :=
  {| b64decode := stub_b64decode; is_zipfile := stub_is_zipfile;
     ZipFile := fun _ => Raise (BadZipFile "Bad magic number for central directory");
     json_dumps := stub_json_dumps |}.

(** A driver that is down, and a driver that accepts without a request id. *)
Definition failing_driver : LifecycleDriverCapability (list string) :=
  {| driver_execute_lifecycle := fun _ _ _ _ _ ds f =>
       (Raise (DriverError "unavailable"), ds, f);
     driver_get_lifecycle_execution := fun _ _ ds =>
       (Raise (DriverError "unavailable"), ds) |}.

Definition anonymous_driver : LifecycleDriverCapability (list string) :=
  {| driver_execute_lifecycle := fun _ _ _ _ _ ds f =>
       (Ok {| ack_request_id := PyNone |}, ds, f);
     driver_get_lifecycle_execution := driver_get_lifecycle_execution stub_driver |}.

Definition service_with (d : LifecycleDriverCapability (list string))
    : LifecycleService (list string) :=
  {| driver := d; script_file_manager := stub_file_manager;
     async_enabled := PyBool true;
     lifecycle_monitor_service := Some stub_monitor |}.

Definition monitor_with (d : LifecycleDriverCapability (list string))
    : LifecycleExecutionMonitoringService (list string) :=
  {| job_queue_service := job_queue_service_object;
     lifecycle_messaging_service := stub_messaging;
     monitor_driver := d |}.

(** * Properties *)

(** ** The log and its projections *)

Lemma posted_app (tr1 tr2 : list event) :
  posted (tr1 ++ tr2) = (posted tr1 ++ posted tr2)%list.
Proof. unfold posted. apply omap_app. Qed.

Lemma queued_jobs_app (tr1 tr2 : list event) :
  queued_jobs (tr1 ++ tr2) = (queued_jobs tr1 ++ queued_jobs tr2)%list.
Proof. unfold queued_jobs. apply omap_app. Qed.

Lemma driver_calls_app (tr1 tr2 : list event) :
  driver_calls (tr1 ++ tr2) = (driver_calls tr1 ++ driver_calls tr2)%list.
Proof. unfold driver_calls. apply filter_app. Qed.

Lemma add_events_nil {DS} (w : world DS) : add_events w [] = w.
Proof. destruct w. unfold add_events. simpl. by rewrite app_nil_r. Qed.

Lemma add_events_app {DS} (w : world DS) (evs1 evs2 : list event) :
  add_events (add_events w evs1) evs2 = add_events w (evs1 ++ evs2).
Proof. unfold add_events. simpl. by rewrite app_assoc. Qed.

Lemma log_add_events {DS} (ev : event) (w : world DS) :
  log ev w = (Ok tt, add_events w [ev]).
Proof. reflexivity. Qed.

Lemma terminal_status_in (s : string) :
  bool_decide (s ∈ [STATUS_COMPLETE; STATUS_FAILED])
  = bool_decide (s = STATUS_COMPLETE ∨ s = STATUS_FAILED).
Proof.
  apply bool_decide_ext. rewrite !elem_of_cons, elem_of_nil. tauto.
Qed.

Section MonitoringProperties.

Context {DS : Type} `{PyLib}.

Implicit Types (self : LifecycleExecutionMonitoringService DS)
  (job_definition : gmap string pyval) (w : world DS).

Lemma send_lifecycle_execution_some (m : LifecycleMessagingService)
    (e : LifecycleExecution) w :
  send_lifecycle_execution m (Some e) w
  = (Ok tt, add_events w [PostalPost (envelope_of m e)]).
Proof. reflexivity. Qed.

Lemma key_present job_definition k v :
  job_definition !! k = Some v -> v <> PyNone ->
  key_missing job_definition k = false.
Proof.
  intros Hk Hv. unfold key_missing. rewrite Hk. by destruct v.
Qed.

(** One poll of a job that carries both fields, when the driver answers. *)
Lemma job_handler_poll self job_definition rid loc w e ds' :
  job_definition !! "request_id" = Some rid -> rid <> PyNone ->
  job_definition !! "deployment_location" = Some loc -> loc <> PyNone ->
  driver_get_lifecycle_execution (monitor_driver self) rid loc (driver_state w)
    = (Ok e, ds') ->
  job_handler self job_definition w
  = if bool_decide (le_status e = STATUS_COMPLETE ∨ le_status e = STATUS_FAILED)
    then (Ok true,
          add_events (set_driver_state w ds')
            [DriverGet rid loc;
             PostalPost (envelope_of (lifecycle_messaging_service self) e)])
    else (Ok false, add_events (set_driver_state w ds') [DriverGet rid loc]).
Proof.
  intros Hrid Hrid' Hloc Hloc' Hdrv.
  unfold job_handler.
  rewrite (key_present _ _ _ Hrid Hrid'), (key_present _ _ _ Hloc Hloc').
  unfold getitem. rewrite Hrid, Hloc.
  unfold bind at 1 2; simpl.
  unfold bind at 1, call_get_lifecycle_execution, bind at 1; simpl.
  rewrite Hdrv. rewrite terminal_status_in.
  case_bool_decide; [|reflexivity].
  unfold bind, post, log, ret, add_events, set_driver_state, envelope_of. simpl.
  by rewrite <- app_assoc.
Qed.

(** C1. For a monitor job that carries a request_id and a
    deployment_location, when the driver reports the record [e]:
    [job_handler] returns a boolean that is true exactly when the status of
    [e] is COMPLETE or FAILED; in that case it hands the postal service the
    envelope of the whole record [e] (the one call of
    [send_lifecycle_execution]), and for any other status nothing is
    published. The driver is queried once either way. *)
Theorem job_handler_publishes_iff_terminal self job_definition rid loc w e ds' :
  job_definition !! "request_id" = Some rid -> rid <> PyNone ->
  job_definition !! "deployment_location" = Some loc -> loc <> PyNone ->
  driver_get_lifecycle_execution (monitor_driver self) rid loc (driver_state w)
    = (Ok e, ds') ->
  exists b : bool,
    (job_handler self job_definition w).1 = Ok b
    /\ (b = true <-> le_status e = STATUS_COMPLETE \/ le_status e = STATUS_FAILED)
    /\ (job_handler self job_definition w).2
       = add_events (set_driver_state w ds')
           (DriverGet rid loc ::
            if b then [PostalPost (envelope_of (lifecycle_messaging_service self) e)]
            else [])
    /\ posted (trace (job_handler self job_definition w).2)
       = (posted (trace w) ++
          if b then [envelope_of (lifecycle_messaging_service self) e] else [])%list.
Proof.
  intros Hrid Hrid' Hloc Hloc' Hdrv.
  rewrite (job_handler_poll _ _ _ _ _ _ _ Hrid Hrid' Hloc Hloc' Hdrv).
  case_bool_decide as Hst.
  - exists true. simpl. rewrite posted_app. simpl. by intuition.
  - exists false. simpl. rewrite posted_app. simpl. intuition congruence.
Qed.

(** C9. Whatever status the driver reports, inside or outside the set
    NOT_STARTED, IN_PROGRESS, as long as it is neither COMPLETE nor FAILED:
    [job_handler] returns false, raises nothing and publishes nothing. *)
Theorem job_handler_other_status_not_done self job_definition rid loc w e ds' :
  job_definition !! "request_id" = Some rid -> rid <> PyNone ->
  job_definition !! "deployment_location" = Some loc -> loc <> PyNone ->
  driver_get_lifecycle_execution (monitor_driver self) rid loc (driver_state w)
    = (Ok e, ds') ->
  le_status e <> STATUS_COMPLETE -> le_status e <> STATUS_FAILED ->
  job_handler self job_definition w
    = (Ok false, add_events (set_driver_state w ds') [DriverGet rid loc])
  /\ posted (trace (job_handler self job_definition w).2) = posted (trace w).
Proof.
  intros Hrid Hrid' Hloc Hloc' Hdrv Hc Hf.
  rewrite (job_handler_poll _ _ _ _ _ _ _ Hrid Hrid' Hloc Hloc' Hdrv).
  rewrite bool_decide_eq_false_2 by tauto.
  split; [reflexivity|]. simpl. rewrite posted_app. simpl. apply app_nil_r.
Qed.

(** C5. A job definition without request_id or without deployment_location
    (the key is absent or its value is None): [job_handler] returns true and
    leaves the world as it was, so the driver is not queried and nothing is
    published. *)
Theorem job_handler_discards_malformed_job self job_definition w :
  job_definition !! "request_id" = None
  \/ job_definition !! "request_id" = Some PyNone
  \/ job_definition !! "deployment_location" = None
  \/ job_definition !! "deployment_location" = Some PyNone ->
  job_handler self job_definition w = (Ok true, w).
Proof.
  intros Hmissing. unfold job_handler, key_missing.
  destruct (job_definition !! "request_id") as [rid|] eqn:Hrid; [|reflexivity].
  destruct (is_None rid) eqn:Hnone; [reflexivity|].
  destruct (job_definition !! "deployment_location") as [loc|] eqn:Hloc;
    [|reflexivity].
  destruct (is_None loc) eqn:Hnone'; [reflexivity|].
  destruct Hmissing as [?|[?|[?|?]]]; simplify_eq; discriminate.
Qed.

(** The job definition has exactly the three keys of the source. *)
Lemma create_job_definition_lookup (rid loc : pyval) :
  __create_job_definition rid loc !! "job_type"
    = Some (PyStr LIFECYCLE_EXECUTION_MONITOR_JOB_TYPE)
  /\ __create_job_definition rid loc !! "request_id" = Some rid
  /\ __create_job_definition rid loc !! "deployment_location" = Some loc
  /\ dom (__create_job_definition rid loc)
     = ({["job_type"; "request_id"; "deployment_location"]} : gset string).
Proof.
  unfold __create_job_definition. split_and!.
  - by rewrite lookup_insert_eq.
  - by rewrite lookup_insert_ne, lookup_insert_eq by done.
  - by rewrite !lookup_insert_ne, lookup_insert_eq by done.
  - rewrite !dom_insert_L, dom_empty_L. set_solver.
Qed.

(** C3, amended. [monitor_execution] raises ValueError and enqueues nothing
    when request_id or deployment_location is None; when neither is None,
    empty values included, it enqueues exactly one job, of type
    'LifecycleExecutionMonitoring', that carries both. *)
Theorem monitor_execution_none_or_enqueue self (rid loc : pyval) w :
  (rid = PyNone \/ loc = PyNone ->
   exists msg, monitor_execution self rid loc w = (Raise (ValueError msg), w))
  /\ (rid <> PyNone -> loc <> PyNone ->
      monitor_execution self rid loc w
        = (Ok tt, add_events w [QueueJob (__create_job_definition rid loc)])
      /\ queued_jobs (trace (monitor_execution self rid loc w).2)
         = (queued_jobs (trace w) ++ [__create_job_definition rid loc])%list
      /\ __create_job_definition rid loc !! "job_type"
         = Some (PyStr "LifecycleExecutionMonitoring")
      /\ __create_job_definition rid loc !! "request_id" = Some rid
      /\ __create_job_definition rid loc !! "deployment_location" = Some loc).
Proof.
  unfold monitor_execution. split.
  - intros [-> | ->]; simpl; [eauto|].
    destruct (is_None rid); eauto.
  - intros Hrid Hloc.
    destruct rid; [done|..]; (destruct loc; [done|..]); simpl;
      rewrite queued_jobs_app; simpl;
      by pose proof (create_job_definition_lookup) as Hl; split_and!;
        try reflexivity; apply Hl.
Qed.

End MonitoringProperties.

Section MessagingProperties.

Context {DS : Type} `{PyLib}.

(** C8. [send_lifecycle_execution] raises ValueError, and posts nothing, when
    the record is absent; otherwise it posts exactly one envelope, addressed
    to the topic the service was configured with, whose message is the
    serialization of the dictionary with the four keys requestId, status,
    outputs, failureDetail and the values of the record. *)
Theorem send_lifecycle_execution_posts_once (self : LifecycleMessagingService)
    (w : world DS) :
  (exists msg, send_lifecycle_execution self None w = (Raise (ValueError msg), w))
  /\ forall e : LifecycleExecution,
       send_lifecycle_execution self (Some e) w
         = (Ok tt,
            add_events w
              [PostalPost
                 {| address := lifecycle_execution_events_topic self;
                    message :=
                      {| content := json_dumps (lifecycle_execution_dict e) |} |}])
       /\ posted (trace (send_lifecycle_execution self (Some e) w).2)
          = (posted (trace w) ++ [envelope_of self e])%list
       /\ dom (lifecycle_execution_dict e)
          = ({["requestId"; "status"; "outputs"; "failureDetail"]} : gset string)
       /\ lifecycle_execution_dict e !! "requestId" = Some (PyStr (le_request_id e))
       /\ lifecycle_execution_dict e !! "status" = Some (PyStr (le_status e))
       /\ lifecycle_execution_dict e !! "outputs" = Some (PyDict (le_outputs e))
       /\ lifecycle_execution_dict e !! "failureDetail"
          = Some (from_option PyStr PyNone (le_failure_detail e)).
Proof.
  split; [by eexists|].
  intros e. split_and!.
  - reflexivity.
  - simpl. by rewrite posted_app.
  - unfold lifecycle_execution_dict.
    rewrite !dom_insert_L, dom_empty_L. set_solver.
  - unfold lifecycle_execution_dict. by rewrite lookup_insert_eq.
  - unfold lifecycle_execution_dict.
    by rewrite lookup_insert_ne, lookup_insert_eq by done.
  - unfold lifecycle_execution_dict.
    by rewrite !lookup_insert_ne, lookup_insert_eq by done.
  - unfold lifecycle_execution_dict.
    by rewrite !lookup_insert_ne, lookup_insert_eq by done.
Qed.

End MessagingProperties.

(** ** Computations confined to the filesystem *)

Section OnlyEvents.

Context {DS : Type}.

Implicit Types (P : event -> Prop) (w : world DS).

Lemma with_fs_id w : add_events (with_fs w (fs w)) [] = w.
Proof. destruct w. unfold add_events, with_fs. simpl. by rewrite app_nil_r. Qed.

Lemma add_events_with_fs w f evs f' evs' :
  add_events (with_fs (add_events (with_fs w f) evs) f') evs'
  = add_events (with_fs w f') (evs ++ evs').
Proof. unfold add_events, with_fs. simpl. by rewrite app_assoc. Qed.

Lemma only_events_ret {A} P (a : A) : only_events (DS:=DS) P (ret a).
Proof. intros w. exists (fs w), []. by rewrite with_fs_id. Qed.

Lemma only_events_raise {A} P (e : exn) : only_events (DS:=DS) (A:=A) P (raise e).
Proof. intros w. exists (fs w), []. by rewrite with_fs_id. Qed.

Lemma only_events_get_fs P : only_events (DS:=DS) P get_fs.
Proof. intros w. exists (fs w), []. by rewrite with_fs_id. Qed.

Lemma only_events_put_fs P f : only_events (DS:=DS) P (put_fs f).
Proof.
  intros w. exists f, []. split; [|constructor].
  unfold put_fs, add_events, with_fs. simpl. by rewrite app_nil_r.
Qed.

Lemma only_events_log P ev : P ev -> only_events (DS:=DS) P (log ev).
Proof.
  intros Hev w. exists (fs w), [ev]. split; [reflexivity|]. by repeat constructor.
Qed.

Lemma only_events_bind {A B} P (m : M DS A) (k : A -> M DS B) :
  only_events P m -> (forall a, only_events P (k a)) -> only_events P (bind m k).
Proof.
  intros Hm Hk w. unfold bind.
  destruct (Hm w) as (f & evs & Hw & Hevs).
  destruct (m w) as [[a|e] w1]; simpl in Hw; subst w1.
  - destruct (Hk a (add_events (with_fs w f) evs)) as (f' & evs' & Hw' & Hevs').
    exists f', (evs ++ evs')%list. rewrite Hw', add_events_with_fs.
    split; [reflexivity|]. by apply Forall_app.
  - by exists f, evs.
Qed.

Lemma only_events_mono {A} P Q (m : M DS A) :
  (forall ev, P ev -> Q ev) -> only_events P m -> only_events Q m.
Proof.
  intros HPQ Hm w. destruct (Hm w) as (f & evs & Hw & Hevs).
  exists f, evs. split; [done|]. by eapply Forall_impl.
Qed.

End OnlyEvents.

Create HintDb only_events discriminated.
#[export] Hint Resolve only_events_ret only_events_raise only_events_get_fs
  only_events_put_fs only_events_log : only_events.

(** Applies the bind rule and the rules of the primitives, case by case. *)
Ltac only_events_step :=
  first
    [ apply only_events_bind; [|intros ?]
    | apply only_events_ret | apply only_events_raise
    | apply only_events_get_fs | apply only_events_put_fs
    | apply only_events_log
    | match goal with
      | |- only_events _ (match ?x with _ => _ end) => destruct x
      | |- only_events _ (if ?b then _ else _) => destruct b
      end ].

(** ** The script file manager *)

Lemma string_length_app (a b : string) :
  String.length (a ++ b) = String.length a + String.length b.
Proof. induction a as [|c a IH]; simpl; [reflexivity | by rewrite IH]. Qed.

Lemma prefix_empty (s : string) : String.prefix "" s = true.
Proof. by destruct s. Qed.

Lemma startswith_sep_zip (t : string) :
  startswith (t ++ ".zip") "/" = startswith t "/".
Proof.
  destruct t as [|c t]; [reflexivity|].
  unfold startswith.
  change (String c t ++ ".zip") with (String c (t ++ ".zip")).
  cbn [String.prefix]. rewrite !prefix_empty. reflexivity.
Qed.

Lemma os_path_join_length_zip (a t : string) :
  String.length (os_path_join a (t ++ ".zip"))
  = String.length (os_path_join a t) + 4.
Proof.
  unfold os_path_join. rewrite startswith_sep_zip.
  destruct (startswith t "/"); [|destruct (_ || _)];
    rewrite !string_length_app; simpl; lia.
Qed.

(** The archive of a tree and the tree itself never share a path. *)
Lemma package_path_ne_extracted_path (self : LifecycleScriptFileManagerService)
    (tree_name : string) :
  __determine_package_path self tree_name
  <> __determine_extracted_path self tree_name.
Proof.
  unfold __determine_package_path, __determine_extracted_path. intros Heq.
  apply (f_equal String.length) in Heq.
  rewrite os_path_join_length_zip in Heq. lia.
Qed.

Section FileManagerProperties.

Context {DS : Type} `{PyLib}.

Implicit Types (self : LifecycleScriptFileManagerService) (w : world DS).

Lemma os_path_exists_run (path : string) w :
  os_path_exists path w = (Ok (bool_decide (is_Some (fs w !! path))), w).
Proof. reflexivity. Qed.

(** Clearing a workspace that is fit for the tree name: the archive is removed
    first, the tree second, and both paths are free afterwards. *)
Lemma clear_existing_files_ok self (tree_name : string) w :
  let package_path := __determine_package_path self tree_name in
  let extracted_path := __determine_extracted_path self tree_name in
  workspace_ok (fs w) package_path extracted_path ->
  __clear_existing_files self tree_name w
  = (Ok tt,
     add_events (with_fs w (delete extracted_path (delete package_path (fs w))))
       (clear_events (fs w) package_path extracted_path)).
Proof.
  intros pkg ext [Hpkg Hext].
  pose proof (package_path_ne_extracted_path self tree_name) as Hne.
  fold pkg ext in Hne.
  unfold __clear_existing_files. fold pkg ext.
  unfold bind at 1. rewrite os_path_exists_run.
  unfold clear_events, add_events, with_fs, bind.
  destruct (fs w !! pkg) as [[data|members]|] eqn:Epkg; [|discriminate|].
  - rewrite bool_decide_eq_true_2 by eauto.
    unfold os_remove, bind, get_fs. rewrite Epkg. simpl.
    rewrite lookup_delete_ne by done.
    destruct (fs w !! ext) as [[data'|members']|] eqn:Eext; [discriminate|..].
    + rewrite bool_decide_eq_true_2 by eauto.
      unfold shutil_rmtree, bind, get_fs. simpl.
      rewrite lookup_delete_ne, Eext by done. simpl.
      by rewrite <- app_assoc.
    + rewrite bool_decide_eq_false_2 by (by intros [? ?]).
      simpl. rewrite (delete_id (delete pkg (fs w)) ext)
        by (by rewrite lookup_delete_ne).
      by rewrite ?app_nil_r.
  - rewrite bool_decide_eq_false_2 by (by intros [? ?]).
    simpl. rewrite (delete_id (fs w) pkg) by done.
    destruct (fs w !! ext) as [[data'|members']|] eqn:Eext; [discriminate|..].
    + rewrite bool_decide_eq_true_2 by eauto.
      unfold shutil_rmtree, bind, get_fs. simpl. rewrite Eext. simpl.
      reflexivity.
    + rewrite bool_decide_eq_false_2 by (by intros [? ?]).
      simpl. rewrite (delete_id (fs w) ext) by done.
      rewrite ?app_nil_r. by destruct w.
Qed.

Lemma workspace_ok_dec (f : gmap string fs_entry) (package_path extracted_path : string) :
  workspace_ok f package_path extracted_path
  \/ is_Dir (f !! package_path) = true
  \/ (is_Dir (f !! package_path) = false /\ is_File (f !! extracted_path) = true).
Proof.
  unfold workspace_ok.
  destruct (is_Dir (f !! package_path)), (is_File (f !! extracted_path)); auto.
Qed.

(** In a workspace that is not fit for the tree name, clearing raises. *)
Lemma clear_existing_files_not_ok self (tree_name : string) w :
  let package_path := __determine_package_path self tree_name in
  let extracted_path := __determine_extracted_path self tree_name in
  ~ workspace_ok (fs w) package_path extracted_path ->
  exists msg w1,
    __clear_existing_files self tree_name w = (Raise (OSError msg), w1)
    /\ fs w1 !! extracted_path = fs w !! extracted_path.
Proof.
  intros pkg ext Hnot.
  pose proof (package_path_ne_extracted_path self tree_name) as Hne.
  fold pkg ext in Hne.
  unfold __clear_existing_files. fold pkg ext.
  unfold bind at 1. rewrite os_path_exists_run. unfold bind.
  destruct (workspace_ok_dec (fs w) pkg ext) as [Hok|[Hdir|[Hdir Hfile]]];
    [done|..].
  - destruct (fs w !! pkg) as [[data|members]|] eqn:Epkg; try discriminate.
    rewrite bool_decide_eq_true_2 by eauto.
    unfold os_remove, bind, get_fs. rewrite Epkg. simpl.
      do 2 eexists; split; [reflexivity|]; simpl; by rewrite ?lookup_delete_ne by done.
  - destruct (fs w !! ext) as [[data'|members']|] eqn:Eext; try discriminate.
    destruct (fs w !! pkg) as [[data|members]|] eqn:Epkg; try discriminate.
    + rewrite bool_decide_eq_true_2 by eauto.
      unfold os_remove, bind, get_fs. rewrite Epkg. simpl.
      rewrite lookup_delete_ne, Eext by done.
      rewrite bool_decide_eq_true_2 by eauto.
      unfold shutil_rmtree, bind, get_fs. simpl.
      rewrite lookup_delete_ne, Eext by done. simpl.
      do 2 eexists; split; [reflexivity|]; simpl; by rewrite ?lookup_delete_ne by done.
    + rewrite bool_decide_eq_false_2 by (by intros [? ?]). simpl.
      rewrite Eext. rewrite bool_decide_eq_true_2 by eauto.
      unfold shutil_rmtree, bind, get_fs. simpl. rewrite Eext. simpl.
      do 2 eexists; split; [reflexivity|]; simpl; by rewrite ?lookup_delete_ne by done.
Qed.

Lemma clear_existing_files_only_removals self (tree_name : string) :
  only_events
    (fun ev => ev = OsRemove (__determine_package_path self tree_name)
               \/ ev = ShutilRmtree (__determine_extracted_path self tree_name))
    (__clear_existing_files (DS:=DS) self tree_name).
Proof.
  unfold __clear_existing_files, os_path_exists, os_remove, shutil_rmtree.
  repeat only_events_step; auto.
Qed.

Lemma build_tree_only_fs_events self (tree_name lifecycle_scripts : string) :
  only_events (fun ev => is_fs_event ev = true)
    (build_tree (DS:=DS) self tree_name lifecycle_scripts).
Proof.
  unfold build_tree, __clear_existing_files, __write_scripts_to_disk,
    __extract_scripts, os_path_exists, os_remove, shutil_rmtree, open_wb,
    file_write, zipfile_is_zipfile, zipfile_ZipFile, extractall.
  repeat only_events_step; reflexivity.
Qed.

(** Writing and extracting on a workspace where both paths are free. *)
Lemma write_and_extract_run self (tree_name lifecycle_scripts : string) w :
  let package_path := __determine_package_path self tree_name in
  let extracted_path := __determine_extracted_path self tree_name in
  fs w !! package_path = None -> fs w !! extracted_path = None ->
  (do package_path <- __write_scripts_to_disk self tree_name lifecycle_scripts;
   do extracted_path <- __extract_scripts self tree_name package_path;
   ret {| root_path := extracted_path |}) w
  = match b64decode lifecycle_scripts with
    | None =>
        (Raise (binascii_Error "Incorrect padding"),
         add_events (with_fs w (<[package_path := File []]> (fs w)))
           [OpenWb package_path])
    | Some data =>
        let f := <[package_path := File data]> (fs w) in
        if is_zipfile data then
          match ZipFile data with
          | Ok members =>
              (Ok {| root_path := extracted_path |},
               add_events
                 (with_fs w (if bool_decide (members = ∅) then f
                             else <[extracted_path := Dir members]> f))
                 [OpenWb package_path; FileWrite package_path data;
                  ExtractAll package_path extracted_path])
          | Raise e =>
              (Raise e,
               add_events (with_fs w f)
                 [OpenWb package_path; FileWrite package_path data])
          end
        else
          (Raise (ValueError
             "lifecycle_scripts should include binary contents of a zip file"),
           add_events (with_fs w f)
             [OpenWb package_path; FileWrite package_path data])
    end.
Proof.
  intros pkg ext Hpkg Hext.
  pose proof (package_path_ne_extracted_path self tree_name) as Hne.
  fold pkg ext in Hne.
  unfold __write_scripts_to_disk, __extract_scripts. fold pkg ext.
  cbv beta iota delta [bind open_wb get_fs log put_fs raise ret]. simpl.
  rewrite Hpkg.
  destruct (b64decode lifecycle_scripts) as [data|]; [|reflexivity].
  cbv beta iota delta [file_write zipfile_is_zipfile bind get_fs log put_fs raise ret].
  simpl. rewrite lookup_insert_eq. simpl.
  rewrite insert_insert_eq, lookup_insert_eq.
  unfold add_events, with_fs. simpl.
  destruct (is_zipfile data); simpl; [|by rewrite <- app_assoc].
  cbv beta iota delta [zipfile_ZipFile bind get_fs raise ret]. simpl.
  rewrite lookup_insert_eq.
  destruct (ZipFile data) as [members|e]; simpl; [|by rewrite <- app_assoc].
  cbv beta iota delta [extractall bind get_fs log put_fs raise ret]. simpl.
  case_bool_decide; simpl.
  - by rewrite <- !app_assoc.
  - rewrite lookup_insert_ne, Hext by done. simpl. by rewrite <- !app_assoc.
Qed.

(** In a workspace that is fit for the tree name, [build_tree] is the write
    and the extraction on the cleared workspace. *)
Lemma build_tree_run self (tree_name lifecycle_scripts : string) w :
  let package_path := __determine_package_path self tree_name in
  let extracted_path := __determine_extracted_path self tree_name in
  workspace_ok (fs w) package_path extracted_path ->
  build_tree self tree_name lifecycle_scripts w
  = (do package_path <- __write_scripts_to_disk self tree_name lifecycle_scripts;
     do extracted_path <- __extract_scripts self tree_name package_path;
     ret {| root_path := extracted_path |})
      (add_events
         (with_fs w (delete extracted_path (delete package_path (fs w))))
         (clear_events (fs w) package_path extracted_path)).
Proof.
  intros pkg ext Hok. unfold build_tree. unfold bind at 1.
  by rewrite (clear_existing_files_ok self tree_name w Hok).
Qed.

Lemma cleared_lookup (f : gmap string fs_entry) (pkg ext : string) :
  pkg <> ext ->
  delete ext (delete pkg f) !! pkg = None
  /\ delete ext (delete pkg f) !! ext = None.
Proof.
  intros Hne. split.
  - by rewrite lookup_delete_ne, lookup_delete_eq.
  - by rewrite lookup_delete_eq.
Qed.

Lemma fs_after_build_lookup (f : gmap string fs_entry) (pkg ext : string)
    (data : bytes) (members : gmap string bytes) :
  pkg <> ext -> f !! ext = None ->
  fs_after_build f pkg ext data members !! pkg = Some (File data)
  /\ tree_at (fs_after_build f pkg ext data members) ext = members
  /\ fs_after_build f pkg ext data members !! ext
     = (if bool_decide (members = ∅) then None else Some (Dir members)).
Proof.
  intros Hne Hext. unfold fs_after_build, tree_at.
  case_bool_decide as Hm.
  - rewrite lookup_insert_eq, lookup_insert_ne, Hext by done.
    split_and!; [reflexivity | by symmetry | reflexivity].
  - by rewrite lookup_insert_ne, !lookup_insert_eq by done.
Qed.

Lemma fs_after_build_cleared (f : gmap string fs_entry) (pkg ext : string)
    (data : bytes) (members : gmap string bytes) :
  pkg <> ext -> f !! pkg = None -> f !! ext = None ->
  delete ext (delete pkg (fs_after_build f pkg ext data members)) = f.
Proof.
  intros Hne Hpkg Hext. unfold fs_after_build. case_bool_decide.
  - rewrite delete_insert_id by done. by apply delete_id.
  - rewrite delete_insert_ne by done.
    rewrite (delete_insert_id f pkg) by done.
    by apply delete_insert_id.
Qed.

Lemma clear_events_no_extract (f : gmap string fs_entry) (pkg ext : string) :
  Forall (fun ev => forall archive path, ev <> ExtractAll archive path)
    (clear_events f pkg ext).
Proof.
  unfold clear_events. apply Forall_app.
  split; case_match; by repeat constructor.
Qed.


(** One build with a valid archive, in a workspace fit for the tree name. *)
Lemma build_tree_valid self (tree_name lifecycle_scripts : string) w
    (data : bytes) (members : gmap string bytes) :
  let package_path := __determine_package_path self tree_name in
  let extracted_path := __determine_extracted_path self tree_name in
  workspace_ok (fs w) package_path extracted_path ->
  b64decode lifecycle_scripts = Some data -> is_zipfile data = true ->
  ZipFile data = Ok members ->
  build_tree self tree_name lifecycle_scripts w
  = (Ok {| root_path := extracted_path |},
     add_events
       (with_fs w
          (fs_after_build (delete extracted_path (delete package_path (fs w)))
             package_path extracted_path data members))
       (clear_events (fs w) package_path extracted_path ++
        [OpenWb package_path; FileWrite package_path data;
         ExtractAll package_path extracted_path])).
Proof.
  intros pkg ext Hok Hdec Hzip Hmem.
  pose proof (package_path_ne_extracted_path self tree_name) as Hne.
  fold pkg ext in Hne.
  destruct (cleared_lookup (fs w) pkg ext Hne) as [Hcp Hce].
  rewrite (build_tree_run self tree_name lifecycle_scripts w Hok).
  rewrite write_and_extract_run by done. fold pkg ext.
  rewrite Hdec. simpl. rewrite Hzip, Hmem.
  unfold fs_after_build, add_events, with_fs. simpl.
  by rewrite <- app_assoc.
Qed.

(** C4. In a workspace fit for the tree name, [build_tree] with a valid
    archive first removes the archive file that is there, then the extracted
    directory that is there, and only then writes and extracts; what is left
    at the two paths is the new archive and its members alone. Building the
    same name again with another archive removes the first archive and its
    tree first, and leaves the filesystem that a single build of the second
    archive gives: nothing of the first build stays. *)
Theorem build_tree_rebuild_no_residue self (tree_name : string) w
    (scripts scripts' : string) (data data' : bytes)
    (members members' : gmap string bytes) :
  let package_path := __determine_package_path self tree_name in
  let extracted_path := __determine_extracted_path self tree_name in
  let cleared := delete extracted_path (delete package_path (fs w)) in
  let r1 := build_tree self tree_name scripts w in
  let r2 := build_tree self tree_name scripts' r1.2 in
  workspace_ok (fs w) package_path extracted_path ->
  b64decode scripts = Some data -> is_zipfile data = true ->
  ZipFile data = Ok members ->
  b64decode scripts' = Some data' -> is_zipfile data' = true ->
  ZipFile data' = Ok members' ->
  r1 = (Ok {| root_path := extracted_path |},
        add_events
          (with_fs w
             (fs_after_build cleared package_path extracted_path data members))
          (clear_events (fs w) package_path extracted_path ++
           [OpenWb package_path; FileWrite package_path data;
            ExtractAll package_path extracted_path]))
  /\ fs r1.2 !! package_path = Some (File data)
  /\ tree_at (fs r1.2) extracted_path = members
  /\ r2.1 = Ok {| root_path := extracted_path |}
  /\ trace r2.2
     = (trace r1.2 ++
        [OsRemove package_path] ++
        (if bool_decide (members = ∅) then [] else [ShutilRmtree extracted_path]) ++
        [OpenWb package_path; FileWrite package_path data';
         ExtractAll package_path extracted_path])%list
  /\ fs r2.2 = fs_after_build cleared package_path extracted_path data' members'
  /\ fs r2.2 !! package_path = Some (File data')
  /\ tree_at (fs r2.2) extracted_path = members'.
Proof.
  intros pkg ext cleared r1 r2 Hok Hdec Hzip Hmem Hdec' Hzip' Hmem'.
  pose proof (package_path_ne_extracted_path self tree_name) as Hne.
  fold pkg ext in Hne.
  destruct (cleared_lookup (fs w) pkg ext Hne) as [Hcp Hce]. fold cleared in Hcp, Hce.
  pose proof (build_tree_valid self tree_name scripts w data members
                Hok Hdec Hzip Hmem) as Hr1.
  fold pkg ext cleared r1 in Hr1.
  destruct (fs_after_build_lookup cleared pkg ext data members Hne Hce)
    as (Hl1 & Ht1 & He1).
  assert (Hok1 : workspace_ok (fs r1.2) pkg ext).
  { rewrite Hr1. simpl. split; [by rewrite Hl1|]. rewrite He1. by case_bool_decide. }
  pose proof (build_tree_valid self tree_name scripts' r1.2 data' members'
                Hok1 Hdec' Hzip' Hmem') as Hr2.
  fold pkg ext r2 in Hr2.
  assert (Hfs1 : fs r1.2 = fs_after_build cleared pkg ext data members)
    by (by rewrite Hr1).
  rewrite Hfs1 in Hr2.
  rewrite (fs_after_build_cleared cleared pkg ext data members Hne Hcp Hce) in Hr2.
  assert (Hclear1 : clear_events (fs_after_build cleared pkg ext data members) pkg ext
                    = ([OsRemove pkg] ++
                       if bool_decide (members = ∅) then [] else [ShutilRmtree ext])%list).
  { unfold clear_events. rewrite Hl1, He1. simpl. by case_bool_decide. }
  rewrite Hclear1 in Hr2.
  destruct (fs_after_build_lookup cleared pkg ext data' members' Hne Hce)
    as (Hl2 & Ht2 & _).
  split_and!; try done.
  - by rewrite Hfs1.
  - by rewrite Hfs1.
  - by rewrite Hr2.
  - rewrite Hr2. reflexivity.
  - by rewrite Hr2.
  - by rewrite Hr2.
  - by rewrite Hr2.
Qed.

End FileManagerProperties.

(** ** The lifecycle service *)

Lemma is_True_spec (v : pyval) : is_True v = true <-> v = PyBool true.
Proof. destruct v as [|[|]| |]; simpl; split; congruence. Qed.

Lemma queued_jobs_fs_events (evs : list event) :
  Forall (fun ev => is_fs_event ev = true) evs -> queued_jobs evs = [].
Proof.
  induction 1 as [|ev evs Hev _ IH]; [reflexivity|].
  destruct ev; simpl in Hev; try discriminate; exact IH.
Qed.

Lemma posted_fs_events (evs : list event) :
  Forall (fun ev => is_fs_event ev = true) evs -> posted evs = [].
Proof.
  induction 1 as [|ev evs Hev _ IH]; [reflexivity|].
  destruct ev; simpl in Hev; try discriminate; exact IH.
Qed.

Lemma driver_calls_fs_events (evs : list event) :
  Forall (fun ev => is_fs_event ev = true) evs -> driver_calls evs = [].
Proof.
  induction 1 as [|ev evs Hev _ IH]; [reflexivity|].
  unfold driver_calls in *. rewrite filter_cons, IH.
  destruct ev; simpl in Hev; try discriminate; by rewrite decide_False.
Qed.

Section ServiceProperties.

Context {DS : Type} `{PyLib}.

Implicit Types (self : LifecycleService DS) (w : world DS).

Lemma uuid4_run w :
  uuid4 w = (Ok (uuids w 0), (uuid4 w).2)
  /\ trace (uuid4 w).2 = (trace w ++ [Uuid4 (uuids w 0)])%list
  /\ driver_state (uuid4 w).2 = driver_state w
  /\ fs (uuid4 w).2 = fs w
  /\ forall n, uuids (uuid4 w).2 n = uuids w (S n).
Proof. by split_and!. Qed.

(** What [build_tree] leaves of the world it is not concerned with. *)
Lemma build_tree_frame (fm : LifecycleScriptFileManagerService)
    (tree_name lifecycle_scripts : string) w :
  exists evs,
    trace (build_tree fm tree_name lifecycle_scripts w).2 = (trace w ++ evs)%list
    /\ Forall (fun ev => is_fs_event ev = true) evs
    /\ driver_state (build_tree fm tree_name lifecycle_scripts w).2 = driver_state w
    /\ uuids (build_tree fm tree_name lifecycle_scripts w).2 = uuids w.
Proof.
  destruct (build_tree_only_fs_events fm tree_name lifecycle_scripts w)
    as (f & evs & Hw & Hevs).
  exists evs. by rewrite Hw.
Qed.

(** C7. When [build_tree] raises on the name just drawn, [execute_lifecycle]
    raises the same exception and stops in the world [build_tree] left: the
    driver was not called, its state is untouched, and no job was queued. *)
Theorem execute_lifecycle_propagates_build_failure self
    (lifecycle_name lifecycle_scripts : string)
    (system_properties properties deployment_location : pyval) w e w1 :
  build_tree (script_file_manager self) (uuids w 0) lifecycle_scripts (uuid4 w).2
    = (Raise e, w1) ->
  execute_lifecycle self lifecycle_name lifecycle_scripts system_properties
    properties deployment_location w = (Raise e, w1)
  /\ driver_calls (trace w1) = driver_calls (trace w)
  /\ driver_state w1 = driver_state w
  /\ queued_jobs (trace w1) = queued_jobs (trace w).
Proof.
  intros Hbuild.
  destruct (build_tree_frame (script_file_manager self) (uuids w 0)
              lifecycle_scripts (uuid4 w).2) as (evs & Htr & Hevs & Hds & _).
  rewrite Hbuild in Htr, Hds. simpl in Htr, Hds.
  split_and!.
  - unfold execute_lifecycle. unfold bind at 1.
    change (uuid4 w) with (Ok (uuids w 0), (uuid4 w).2).
    cbv beta iota. unfold bind at 1. by rewrite Hbuild.
  - rewrite Htr, !driver_calls_app, (driver_calls_fs_events evs Hevs).
    simpl. by rewrite !app_nil_r.
  - by rewrite Hds.
  - rewrite Htr, !queued_jobs_app, (queued_jobs_fs_events evs Hevs).
    simpl. by rewrite !app_nil_r.
Qed.

Lemma extract_scripts_ok_path (fm : LifecycleScriptFileManagerService)
    (tree_name package_path x : string) w w1 :
  __extract_scripts fm tree_name package_path w = (Ok x, w1) ->
  x = __determine_extracted_path fm tree_name.
Proof.
  unfold __extract_scripts, bind.
  destruct (zipfile_is_zipfile package_path w) as [[[|]|e0] w0]; simpl;
    [|discriminate..].
  destruct (zipfile_ZipFile package_path w0) as [[members|e1] w2];
    [|discriminate].
  destruct (extractall _ _ _ w2) as [[[]|e2] w3]; [|discriminate].
  unfold ret. congruence.
Qed.

(** The handle [build_tree] returns is the extracted path of the name. *)
Lemma build_tree_ok_root (fm : LifecycleScriptFileManagerService)
    (tree_name lifecycle_scripts : string) (tree : DirectoryTree) w w1 :
  build_tree fm tree_name lifecycle_scripts w = (Ok tree, w1) ->
  tree = {| root_path := __determine_extracted_path fm tree_name |}.
Proof.
  unfold build_tree, bind.
  destruct (__clear_existing_files fm tree_name w) as [[[]|e0] w0];
    [|discriminate].
  destruct (__write_scripts_to_disk fm tree_name lifecycle_scripts w0)
    as [[package_path|e1] w2]; [|discriminate].
  destruct (__extract_scripts fm tree_name package_path w2)
    as [[x|e2] w3] eqn:Hx; [|discriminate].
  apply extract_scripts_ok_path in Hx. unfold ret. congruence.
Qed.

(** C6. A submission that succeeds: the bundle name is the draw of
    [uuid.uuid4] made before anything else (so it owes nothing to the request
    id, which the driver has not assigned yet), and the draw is consumed;
    [build_tree] ran on that name and gave the tree of that name; the driver
    was then called once with that tree and answered [r]; after that one job
    for the request id of [r] and the deployment location was queued exactly
    when the async flag of the service is [True]; and [r], as the driver gave
    it, is what the caller gets. *)
Theorem execute_lifecycle_success self
    (lifecycle_name lifecycle_scripts : string)
    (system_properties properties deployment_location : pyval) w r w' :
  execute_lifecycle self lifecycle_name lifecycle_scripts system_properties
    properties deployment_location w = (Ok r, w') ->
  let file_name := uuids w 0 in
  let tree :=
    {| root_path := __determine_extracted_path (script_file_manager self) file_name |} in
  let job := __create_job_definition (ack_request_id r) deployment_location in
  exists w1 evs,
    build_tree (script_file_manager self) file_name lifecycle_scripts (uuid4 w).2
      = (Ok tree, w1)
    /\ Forall (fun ev => is_fs_event ev = true) evs
    /\ driver_execute_lifecycle (driver self) lifecycle_name tree
         system_properties properties deployment_location
         (driver_state w) (fs w1)
       = (Ok r, driver_state w', fs w')
    /\ trace w'
       = (trace w ++ [Uuid4 file_name] ++ evs ++
          [DriverExecute lifecycle_name tree system_properties properties
             deployment_location] ++
          if is_True (async_enabled self) then [QueueJob job] else [])%list
    /\ queued_jobs (trace w')
       = (queued_jobs (trace w) ++
          if is_True (async_enabled self) then [job] else [])%list
    /\ forall n, uuids w' n = uuids w (S n).
Proof.
  intros Hrun file_name tree job.
  unfold execute_lifecycle in Hrun. unfold bind at 1 in Hrun.
  change (uuid4 w) with (Ok (uuids w 0), (uuid4 w).2) in Hrun.
  cbv beta iota in Hrun. fold file_name in Hrun.
  unfold bind at 1 in Hrun.
  destruct (build_tree_frame (script_file_manager self) file_name
              lifecycle_scripts (uuid4 w).2) as (evs & Htr & Hevs & Hds & Huu).
  destruct (build_tree (script_file_manager self) file_name lifecycle_scripts
              (uuid4 w).2) as [[tree'|e] w1] eqn:Hbuild; [|discriminate].
  pose proof (build_tree_ok_root _ _ _ _ _ _ Hbuild) as ->. fold tree in Hrun, Hbuild.
  simpl in Htr, Hds, Huu.
  unfold bind at 1, call_execute_lifecycle in Hrun.
  unfold bind at 1 in Hrun. rewrite log_add_events in Hrun.
  cbv beta iota in Hrun. simpl in Hrun. rewrite Hds in Hrun.
  destruct (driver_execute_lifecycle (driver self) lifecycle_name tree
              system_properties properties deployment_location
              (driver_state w) (fs w1)) as [[[r'|e] ds2] fs2] eqn:Hdrv;
    [|discriminate].
  exists w1, evs.
  assert (Hq : queued_jobs (trace w1) = queued_jobs (trace w)).
  { rewrite Htr, !queued_jobs_app, (queued_jobs_fs_events evs Hevs).
    simpl. by rewrite !app_nil_r. }
  unfold bind in Hrun.
  destruct (is_True (async_enabled self)) eqn:Hasync.
  - unfold __async_lifecycle_execution_completion in Hrun.
    destruct (lifecycle_monitor_service self) as [monitor|]; [|discriminate].
    unfold monitor_execution in Hrun.
    destruct (is_None (ack_request_id r')); [discriminate|].
    destruct (is_None deployment_location); [discriminate|].
    simpl in Hrun. injection Hrun as <- <-. simpl.
    split_and!; try done.
    + rewrite Htr. by rewrite <- !app_assoc.
    + rewrite !queued_jobs_app, Hq. simpl. by rewrite <- app_assoc.
    + intros n. by rewrite Huu.
  - simpl in Hrun. injection Hrun as <- <-. simpl.
    split_and!; try done.
    + rewrite Htr. by rewrite <- !app_assoc.
    + rewrite !queued_jobs_app, Hq. simpl. by rewrite !app_nil_r.
    + intros n. by rewrite Huu.
Qed.

(** With the flag off, [execute_lifecycle] queues nothing, however it ends. *)
Lemma execute_lifecycle_sync_no_job self
    (lifecycle_name lifecycle_scripts : string)
    (system_properties properties deployment_location : pyval) w :
  is_True (async_enabled self) = false ->
  queued_jobs
    (trace (execute_lifecycle self lifecycle_name lifecycle_scripts
              system_properties properties deployment_location w).2)
  = queued_jobs (trace w).
Proof.
  intros Hflag.
  unfold execute_lifecycle. unfold bind at 1.
  change (uuid4 w) with (Ok (uuids w 0), (uuid4 w).2). cbv beta iota.
  unfold bind at 1.
  destruct (build_tree_frame (script_file_manager self) (uuids w 0)
              lifecycle_scripts (uuid4 w).2) as (evs & Htr & Hevs & Hds & Huu).
  assert (Hq : queued_jobs
                 (trace (build_tree (script_file_manager self) (uuids w 0)
                           lifecycle_scripts (uuid4 w).2).2)
               = queued_jobs (trace w)).
  { rewrite Htr, !queued_jobs_app, (queued_jobs_fs_events evs Hevs).
    simpl. rewrite ?queued_jobs_app. simpl. by rewrite !app_nil_r. }
  destruct (build_tree (script_file_manager self) (uuids w 0) lifecycle_scripts
              (uuid4 w).2) as [[tree|e] w1]; simpl in Hq; [|exact Hq].
  unfold bind at 1, call_execute_lifecycle. unfold bind at 1.
  rewrite log_add_events. cbv beta iota. simpl.
  destruct (driver_execute_lifecycle (driver self) lifecycle_name tree
              system_properties properties deployment_location
              (driver_state w1) (fs w1)) as [[[r|e] ds2] fs2]; simpl.
  - rewrite Hflag. unfold bind, ret. simpl.
    rewrite queued_jobs_app, Hq. simpl. by rewrite app_nil_r.
  - rewrite queued_jobs_app, Hq. simpl. by rewrite app_nil_r.
Qed.

(** C10. With a configuration given: if its flag is [True] and no
    [lifecycle_monitor_service] is passed, [__init__] raises ValueError; if
    the flag is anything but [True] and the driver and the script file manager
    are passed, [__init__] succeeds, sets no monitor on the service whether or
    not one was passed, and [execute_lifecycle] on that service runs the same
    whatever monitor the attribute might hold, and queues no job. *)
Theorem LifecycleService_init_monitor_only_when_async
    (kwargs : LifecycleService_kwargs DS) (lifecycle_config : LifecycleProperties) :
  kw_lifecycle_config kwargs = Some lifecycle_config ->
  (async_messaging_enabled lifecycle_config = PyBool true ->
   kw_lifecycle_monitor_service kwargs = None ->
   exists msg, LifecycleService_init kwargs = Raise (ValueError msg))
  /\ (async_messaging_enabled lifecycle_config <> PyBool true ->
      forall d fm,
        kw_driver kwargs = Some d -> kw_script_file_manager kwargs = Some fm ->
        LifecycleService_init kwargs
          = Ok {| driver := d; script_file_manager := fm;
                  async_enabled := async_messaging_enabled lifecycle_config;
                  lifecycle_monitor_service := None |}
        /\ forall monitor lifecycle_name lifecycle_scripts system_properties
                  properties deployment_location w,
             execute_lifecycle
               {| driver := d; script_file_manager := fm;
                  async_enabled := async_messaging_enabled lifecycle_config;
                  lifecycle_monitor_service := monitor |}
               lifecycle_name lifecycle_scripts system_properties properties
               deployment_location w
             = execute_lifecycle
                 {| driver := d; script_file_manager := fm;
                    async_enabled := async_messaging_enabled lifecycle_config;
                    lifecycle_monitor_service := None |}
                 lifecycle_name lifecycle_scripts system_properties properties
                 deployment_location w
             /\ queued_jobs
                  (trace (execute_lifecycle
                            {| driver := d; script_file_manager := fm;
                               async_enabled := async_messaging_enabled lifecycle_config;
                               lifecycle_monitor_service := None |}
                            lifecycle_name lifecycle_scripts system_properties
                            properties deployment_location w).2)
                = queued_jobs (trace w)).
Proof.
  intros Hcfg. split.
  - intros Hasync Hmon. unfold LifecycleService_init.
    rewrite Hcfg, Hmon, Hasync. simpl.
    destruct (kw_driver kwargs); [|eauto].
    destruct (kw_script_file_manager kwargs); eauto.
  - intros Hasync d fm Hd Hfm.
    assert (Hflag : is_True (async_messaging_enabled lifecycle_config) = false).
    { destruct (is_True _) eqn:E; [|reflexivity]. by apply is_True_spec in E. }
    split.
    + unfold LifecycleService_init. by rewrite Hd, Hcfg, Hfm, Hflag.
    + intros. split.
      * unfold execute_lifecycle. simpl. by rewrite Hflag.
      * by apply execute_lifecycle_sync_no_job.
Qed.

End ServiceProperties.

(** ** The theorems at concrete inputs, on the stub library and driver *)

Section ConcreteRuns.

#[local] Existing Instance stub_pylib.

Lemma job_handler_publishes_iff_terminal_witness :
  exists b : bool,
    (job_handler stub_monitor stub_job (stub_world [STATUS_COMPLETE])).1 = Ok b
    /\ (b = true <->
        le_status complete_record = STATUS_COMPLETE
        \/ le_status complete_record = STATUS_FAILED)
    /\ (job_handler stub_monitor stub_job (stub_world [STATUS_COMPLETE])).2
       = add_events (set_driver_state (stub_world [STATUS_COMPLETE]) [])
           (DriverGet (PyStr "abc") stub_location ::
            if b then [PostalPost (envelope_of stub_messaging complete_record)]
            else [])
    /\ posted (trace (job_handler stub_monitor stub_job
                        (stub_world [STATUS_COMPLETE])).2)
       = (posted (trace (stub_world [STATUS_COMPLETE])) ++
          if b then [envelope_of stub_messaging complete_record] else [])%list.
Proof.
  apply (job_handler_publishes_iff_terminal stub_monitor stub_job
           (PyStr "abc") stub_location (stub_world [STATUS_COMPLETE])
           complete_record []);
    [reflexivity | discriminate | reflexivity | discriminate | reflexivity].
Defined.

Lemma job_handler_other_status_not_done_witness :
  job_handler stub_monitor stub_job (stub_world ["PAUSED"])
    = (Ok false,
       add_events (set_driver_state (stub_world ["PAUSED"]) [])
         [DriverGet (PyStr "abc") stub_location])
  /\ posted (trace (job_handler stub_monitor stub_job (stub_world ["PAUSED"])).2)
     = posted (trace (stub_world ["PAUSED"])).
Proof.
  apply (job_handler_other_status_not_done stub_monitor stub_job
           (PyStr "abc") stub_location (stub_world ["PAUSED"]) paused_record []);
    [reflexivity | discriminate | reflexivity | discriminate | reflexivity
    | discriminate | discriminate].
Defined.

Lemma job_handler_discards_malformed_job_witness :
  job_handler stub_monitor {[ "request_id" := PyStr "abc" ]} (stub_world [])
  = (Ok true, stub_world []).
Proof.
  apply (job_handler_discards_malformed_job stub_monitor
           {[ "request_id" := PyStr "abc" ]} (stub_world [])).
  right; right; left. reflexivity.
Defined.

Lemma monitor_execution_none_or_enqueue_witness :
  (exists msg,
     monitor_execution stub_monitor (PyStr "abc") PyNone (stub_world [])
     = (Raise (ValueError msg), stub_world []))
  /\ monitor_execution stub_monitor (PyStr "abc") stub_location (stub_world [])
     = (Ok tt, add_events (stub_world []) [QueueJob stub_job]).
Proof.
  split.
  - apply (monitor_execution_none_or_enqueue stub_monitor (PyStr "abc") PyNone
             (stub_world [])). right. reflexivity.
  - apply (monitor_execution_none_or_enqueue stub_monitor (PyStr "abc")
             stub_location (stub_world [])); discriminate.
Defined.

(** C3, as stated, fails: an empty request id and an empty deployment location
    are not None, so no ValueError is raised and a job is queued. *)
Lemma monitor_execution_accepts_empty_arguments :
  (monitor_execution stub_monitor (PyStr "") (PyDict ∅) (stub_world [])).1 = Ok tt
  /\ queued_jobs
       (trace (monitor_execution stub_monitor (PyStr "") (PyDict ∅)
                 (stub_world [])).2)
     = [__create_job_definition (PyStr "") (PyDict ∅)].
Proof. split; reflexivity. Qed.

End ConcreteRuns.

Section ConcreteBuilds.

#[local] Existing Instance stub_pylib.

Lemma stub_workspace_ok (tree_name : string) :
  workspace_ok (fs (stub_world [])) 
    (__determine_package_path stub_file_manager tree_name)
    (__determine_extracted_path stub_file_manager tree_name).
Proof. split; reflexivity. Qed.



Lemma build_tree_rebuild_no_residue_witness :
  let r1 := build_tree stub_file_manager "t1" "PKold" (stub_world []) in
  let r2 := build_tree stub_file_manager "t1" "PKnew" r1.2 in
  tree_at (fs r1.2) (__determine_extracted_path stub_file_manager "t1")
    = {[ "install.sh" := bytes_of_string "old" ]}
  /\ r2.1 = Ok {| root_path := __determine_extracted_path stub_file_manager "t1" |}
  /\ tree_at (fs r2.2) (__determine_extracted_path stub_file_manager "t1")
     = {[ "install.sh" := bytes_of_string "new" ]}.
Proof.
  intros r1 r2.
  destruct (build_tree_rebuild_no_residue stub_file_manager "t1" (stub_world [])
              "PKold" "PKnew" (bytes_of_string "PKold") (bytes_of_string "PKnew")
              {[ "install.sh" := bytes_of_string "old" ]}
              {[ "install.sh" := bytes_of_string "new" ]})
    as (_ & _ & Ht1 & Hr2 & _ & _ & _ & Ht2);
    [apply stub_workspace_ok | reflexivity..|].
  split_and!; [exact Ht1 | exact Hr2 | exact Ht2].
Defined.

Lemma execute_lifecycle_propagates_build_failure_witness :
  (execute_lifecycle (stub_service (PyBool true)) "install" "no!zip"
     PyNone PyNone stub_location (stub_world [])).1
    = Raise (binascii_Error "Incorrect padding")
  /\ driver_calls
       (trace (execute_lifecycle (stub_service (PyBool true)) "install" "no!zip"
                 PyNone PyNone stub_location (stub_world [])).2) = []
  /\ queued_jobs
       (trace (execute_lifecycle (stub_service (PyBool true)) "install" "no!zip"
                 PyNone PyNone stub_location (stub_world [])).2) = [].
Proof.
  destruct (execute_lifecycle_propagates_build_failure (stub_service (PyBool true))
              "install" "no!zip" PyNone PyNone stub_location (stub_world [])
              (binascii_Error "Incorrect padding")
              (build_tree stub_file_manager (uuids (stub_world []) 0) "no!zip"
                 (uuid4 (stub_world [])).2).2)
    as (Hrun & Hdrv & _ & Hq); [reflexivity|].
  rewrite Hrun. split_and!; [reflexivity | exact Hdrv | exact Hq].
Defined.

Lemma execute_lifecycle_success_witness :
  let w := stub_world [] in
  let out := execute_lifecycle (stub_service (PyBool true)) "install" "PKhello"
               PyNone PyNone stub_location w in
  out.1 = Ok {| ack_request_id := PyStr "abc" |}
  /\ queued_jobs (trace out.2) = [stub_job]
  /\ forall n, uuids out.2 n = uuids w (S n).
Proof.
  intros w out.
  destruct (execute_lifecycle_success (stub_service (PyBool true)) "install"
              "PKhello" PyNone PyNone stub_location w
              {| ack_request_id := PyStr "abc" |} out.2)
    as (w1 & evs & _ & _ & _ & _ & Hq & Huu); [reflexivity|].
  split_and!; [reflexivity | exact Hq | exact Huu].
Defined.

Lemma LifecycleService_init_monitor_only_when_async_witness :
  (exists msg,
     LifecycleService_init
       {| kw_driver := Some stub_driver;
          kw_lifecycle_config := Some LifecycleProperties_init;
          kw_script_file_manager := Some stub_file_manager;
          kw_lifecycle_monitor_service := None |}
     = Raise (ValueError msg))
  /\ LifecycleService_init
       {| kw_driver := Some stub_driver;
          kw_lifecycle_config :=
            Some {| async_messaging_enabled := PyBool false;
                    scripts_workspace := "./scripts_workspace" |};
          kw_script_file_manager := Some stub_file_manager;
          kw_lifecycle_monitor_service := Some stub_monitor |}
     = Ok (stub_service (PyBool false)).
Proof.
  split.
  - apply (LifecycleService_init_monitor_only_when_async
             {| kw_driver := Some stub_driver;
                kw_lifecycle_config := Some LifecycleProperties_init;
                kw_script_file_manager := Some stub_file_manager;
                kw_lifecycle_monitor_service := None |}
             LifecycleProperties_init); reflexivity.
  - apply (LifecycleService_init_monitor_only_when_async
             {| kw_driver := Some stub_driver;
                kw_lifecycle_config :=
                  Some {| async_messaging_enabled := PyBool false;
                          scripts_workspace := "./scripts_workspace" |};
                kw_script_file_manager := Some stub_file_manager;
                kw_lifecycle_monitor_service := Some stub_monitor |}
             {| async_messaging_enabled := PyBool false;
                scripts_workspace := "./scripts_workspace" |});
      [reflexivity | discriminate | reflexivity | reflexivity].
Defined.

End ConcreteBuilds.

(** * Further properties of the module *)

(** ** Monitoring: job definitions, polls and the constructor *)

Section MonitoringFurther.

Context {DS : Type} `{PyLib}.

Implicit Types (self : LifecycleExecutionMonitoringService DS)
  (job_definition : gmap string pyval) (w : world DS).

Lemma key_missing_false job_definition k :
  key_missing job_definition k = false ->
  exists v, job_definition !! k = Some v /\ v <> PyNone.
Proof.
  unfold key_missing. destruct (job_definition !! k) as [v|]; [|discriminate].
  intros Hv. exists v. split; [reflexivity|]. by intros ->.
Qed.

(** One poll of a job that carries both fields, whatever the driver does. *)
Lemma job_handler_run self job_definition rid loc w :
  job_definition !! "request_id" = Some rid -> rid <> PyNone ->
  job_definition !! "deployment_location" = Some loc -> loc <> PyNone ->
  job_handler self job_definition w
  = match driver_get_lifecycle_execution (monitor_driver self) rid loc
            (driver_state w) with
    | (Ok e, ds') =>
        if bool_decide (le_status e = STATUS_COMPLETE \/ le_status e = STATUS_FAILED)
        then (Ok true,
              add_events (set_driver_state w ds')
                [DriverGet rid loc;
                 PostalPost (envelope_of (lifecycle_messaging_service self) e)])
        else (Ok false, add_events (set_driver_state w ds') [DriverGet rid loc])
    | (Raise e, ds') =>
        (Raise e, add_events (set_driver_state w ds') [DriverGet rid loc])
    end.
Proof.
  intros Hrid Hrid' Hloc Hloc'.
  destruct (driver_get_lifecycle_execution (monitor_driver self) rid loc
              (driver_state w)) as [[e|e] ds'] eqn:Hdrv.
  - by apply job_handler_poll.
  - unfold job_handler.
    rewrite (key_present _ _ _ Hrid Hrid'), (key_present _ _ _ Hloc Hloc').
    unfold getitem. rewrite Hrid, Hloc.
    unfold bind at 1 2; simpl.
    unfold bind at 1, call_get_lifecycle_execution, bind at 1; simpl.
    by rewrite Hdrv.
Qed.

(** X1. The job definition that [monitor_execution] queues for a request id
    and a deployment location that are not None is never discarded by
    [job_handler]: the handler queries the driver exactly once, with that
    request id and that location, whatever the driver then answers. *)
Theorem job_handler_reads_back_created_job self (rid loc : pyval) w :
  rid <> PyNone -> loc <> PyNone ->
  driver_calls
    (trace (job_handler self (__create_job_definition rid loc) w).2)
  = (driver_calls (trace w) ++ [DriverGet rid loc])%list.
Proof.
  intros Hrid Hloc.
  destruct (create_job_definition_lookup rid loc) as (_ & Hr & Hl & _).
  rewrite (job_handler_run self _ rid loc w Hr Hrid Hl Hloc).
  destruct (driver_get_lifecycle_execution _ _ _ _) as [[e|e] ds'];
    [case_bool_decide|]; simpl; by rewrite driver_calls_app.
Qed.

(** X2. When the driver raises on the status query, [job_handler] raises the
    same exception: it does not return, so the job is not reported done, and
    nothing is published. *)
Theorem job_handler_propagates_driver_error self job_definition rid loc w e ds' :
  job_definition !! "request_id" = Some rid -> rid <> PyNone ->
  job_definition !! "deployment_location" = Some loc -> loc <> PyNone ->
  driver_get_lifecycle_execution (monitor_driver self) rid loc (driver_state w)
    = (Raise e, ds') ->
  job_handler self job_definition w
    = (Raise e, add_events (set_driver_state w ds') [DriverGet rid loc])
  /\ posted (trace (job_handler self job_definition w).2) = posted (trace w).
Proof.
  intros Hrid Hrid' Hloc Hloc' Hdrv.
  rewrite (job_handler_run self _ rid loc w Hrid Hrid' Hloc Hloc'), Hdrv.
  split; [reflexivity|]. simpl. rewrite posted_app. simpl. apply app_nil_r.
Qed.

(** X3. Whatever the job definition, the world and the driver: one call of
    [job_handler] leaves the filesystem and the entropy as they were, queues
    no job, queries the driver at most once and publishes at most one
    envelope. *)
Theorem job_handler_footprint self job_definition w :
  fs (job_handler self job_definition w).2 = fs w
  /\ uuids (job_handler self job_definition w).2 = uuids w
  /\ queued_jobs (trace (job_handler self job_definition w).2)
     = queued_jobs (trace w)
  /\ length (driver_calls (trace (job_handler self job_definition w).2))
     <= S (length (driver_calls (trace w)))
  /\ length (posted (trace (job_handler self job_definition w).2))
     <= S (length (posted (trace w))).
Proof.
  destruct (key_missing job_definition "request_id") eqn:Hk1.
  { unfold job_handler. rewrite Hk1. simpl. split_and!; auto. }
  destruct (key_missing job_definition "deployment_location") eqn:Hk2.
  { unfold job_handler. rewrite Hk1, Hk2. simpl. split_and!; auto. }
  destruct (key_missing_false _ _ Hk1) as (rid & Hrid & Hrid').
  destruct (key_missing_false _ _ Hk2) as (loc & Hloc & Hloc').
  rewrite (job_handler_run self _ rid loc w Hrid Hrid' Hloc Hloc').
  destruct (driver_get_lifecycle_execution _ _ _ _) as [[e|e] ds'];
    [case_bool_decide|]; simpl;
    rewrite queued_jobs_app, driver_calls_app, posted_app, !length_app;
    simpl; rewrite ?app_nil_r; split_and!; auto; lia.
Qed.


End MonitoringFurther.

(** ** Messaging: the constructor and the address of what is sent *)

Section MessagingFurther.

Context {DS : Type} `{PyLib}.


End MessagingFurther.

(** ** The script file manager: paths, isolation and what a failure leaves *)

Lemma string_app_inv_head (a b c : string) : a ++ b = a ++ c -> b = c.
Proof.
  induction a as [|x a IH]; simpl; [done|].
  intros Heq. injection Heq as Heq. by apply IH.
Qed.

Lemma string_app_inv_tail (a b c : string) : a ++ c = b ++ c -> a = b.
Proof.
  revert b. induction a as [|x a IH]; intros [|y b] Heq.
  - reflexivity.
  - apply (f_equal String.length) in Heq.
    rewrite !string_length_app in Heq. simpl in Heq. lia.
  - apply (f_equal String.length) in Heq.
    rewrite !string_length_app in Heq. simpl in Heq. lia.
  - change (String x (a ++ c) = String y (b ++ c)) in Heq.
    injection Heq as -> Heq. f_equal. by apply IH.
Qed.

Lemma prefix_app (a b : string) : String.prefix a (a ++ b) = true.
Proof.
  induction a as [|x a IH]; simpl; [apply prefix_empty|].
  by destruct (Ascii.ascii_dec x x).
Qed.

Lemma os_path_join_relative (a b : string) :
  startswith b "/" = false ->
  exists sep, (sep = "" \/ sep = "/") /\ os_path_join a b = a ++ sep ++ b.
Proof.
  intros Hb. unfold os_path_join. rewrite Hb.
  destruct (_ || _); [exists ""|exists "/"]; auto.
Qed.

Lemma os_path_join_sep (a b c : string) :
  startswith b "/" = false -> startswith c "/" = false ->
  os_path_join a b = os_path_join a c -> b = c.
Proof.
  intros Hb Hc. unfold os_path_join. rewrite Hb, Hc.
  destruct (_ || _); intros Heq.
  - by apply string_app_inv_head in Heq.
  - apply string_app_inv_head in Heq. by injection Heq.
Qed.

Section FileManagerFurther.

Context {DS : Type} `{PyLib}.

Implicit Types (self : LifecycleScriptFileManagerService) (w : world DS).


(** X7. A tree name that starts with '/' makes [os.path.join] drop the
    workspace: the archive goes to the name with ".zip" appended, the tree to
    the name itself, and [build_tree] does the same whatever workspace the
    service was configured with. *)
Theorem absolute_tree_name_ignores_workspace self other (tree_name scripts : string) w :
  startswith tree_name "/" = true ->
  __determine_package_path self tree_name = tree_name ++ ".zip"
  /\ __determine_extracted_path self tree_name = tree_name
  /\ build_tree self tree_name scripts w = build_tree other tree_name scripts w.
Proof.
  intros Habs.
  assert (Hpkg : forall fm, __determine_package_path fm tree_name = tree_name ++ ".zip").
  { intros fm. unfold __determine_package_path, os_path_join.
    by rewrite startswith_sep_zip, Habs. }
  assert (Hext : forall fm, __determine_extracted_path fm tree_name = tree_name).
  { intros fm. unfold __determine_extracted_path, os_path_join. by rewrite Habs. }
  split_and!; [apply Hpkg | apply Hext |].
  unfold build_tree, __clear_existing_files, __write_scripts_to_disk,
    __extract_scripts.
  by rewrite (Hpkg self), (Hpkg other), (Hext self), (Hext other).
Qed.

Lemma touches_only_ret {A} (S : string -> Prop) (a : A) :
  touches_only (DS:=DS) S (ret a).
Proof. by intros w p _. Qed.

Lemma touches_only_raise {A} (S : string -> Prop) (e : exn) :
  touches_only (DS:=DS) (A:=A) S (raise e).
Proof. by intros w p _. Qed.

Lemma touches_only_bind {A B} (S : string -> Prop) (m : M DS A) (k : A -> M DS B) :
  touches_only S m -> (forall a, touches_only S (k a)) ->
  touches_only S (bind m k).
Proof.
  intros Hm Hk w p Hp. unfold bind.
  specialize (Hm w p Hp).
  destruct (m w) as [[a|e] w1]; simpl in Hm; [|exact Hm].
  by rewrite (Hk a w1 p Hp).
Qed.

Lemma touches_only_os_path_exists (S : string -> Prop) path :
  touches_only (DS:=DS) S (os_path_exists path).
Proof. by intros w p _. Qed.

Lemma touches_only_os_remove (S : string -> Prop) path :
  S path -> touches_only (DS:=DS) S (os_remove path).
Proof.
  intros Hpath w p Hp. unfold os_remove, bind, get_fs. simpl.
  destruct (fs w !! path) as [[?|?]|]; simpl; try reflexivity.
  apply lookup_delete_ne. by intros ->.
Qed.

Lemma touches_only_shutil_rmtree (S : string -> Prop) path :
  S path -> touches_only (DS:=DS) S (shutil_rmtree path).
Proof.
  intros Hpath w p Hp. unfold shutil_rmtree, bind, get_fs. simpl.
  destruct (fs w !! path) as [[?|?]|]; simpl; try reflexivity.
  apply lookup_delete_ne. by intros ->.
Qed.

Lemma touches_only_open_wb (S : string -> Prop) path :
  S path -> touches_only (DS:=DS) S (open_wb path).
Proof.
  intros Hpath w p Hp. unfold open_wb, bind, get_fs. simpl.
  destruct (fs w !! path) as [[?|?]|]; simpl; try reflexivity;
    apply lookup_insert_ne; by intros ->.
Qed.

Lemma touches_only_file_write (S : string -> Prop) path data :
  S path -> touches_only (DS:=DS) S (file_write path data).
Proof.
  intros Hpath w p Hp. unfold file_write, bind, get_fs. simpl.
  destruct (fs w !! path) as [[?|?]|]; simpl; try reflexivity.
  apply lookup_insert_ne. by intros ->.
Qed.

Lemma touches_only_is_zipfile (S : string -> Prop) path :
  touches_only (DS:=DS) S (zipfile_is_zipfile path).
Proof.
  intros w p _. unfold zipfile_is_zipfile, bind, get_fs. simpl.
  by destruct (fs w !! path) as [[?|?]|].
Qed.

Lemma touches_only_ZipFile (S : string -> Prop) path :
  touches_only (DS:=DS) S (zipfile_ZipFile path).
Proof.
  intros w p _. unfold zipfile_ZipFile, bind, get_fs. simpl.
  destruct (fs w !! path) as [[data|?]|]; try reflexivity.
  by destruct (ZipFile data).
Qed.

Lemma touches_only_extractall (S : string -> Prop) archive members path :
  S path -> touches_only (DS:=DS) S (extractall archive members path).
Proof.
  intros Hpath w p Hp. unfold extractall, bind, log, get_fs. simpl.
  case_bool_decide; [reflexivity|]. simpl.
  destruct (fs w !! path) as [[?|?]|]; simpl; try reflexivity;
    apply lookup_insert_ne; by intros ->.
Qed.




End FileManagerFurther.

(** ** The lifecycle service: failures after the bundle is built *)

Section ServiceFurther.

Context {DS : Type} `{PyLib}.

Implicit Types (self : LifecycleService DS) (w : world DS).

(** The world once the driver has answered a call made in [w1]. *)
Lemma execute_lifecycle_after_build self
    (lifecycle_name lifecycle_scripts : string)
    (system_properties properties deployment_location : pyval) w tree w1 :
  build_tree (script_file_manager self) (uuids w 0) lifecycle_scripts (uuid4 w).2
    = (Ok tree, w1) ->
  execute_lifecycle self lifecycle_name lifecycle_scripts system_properties
    properties deployment_location w
  = match driver_execute_lifecycle (driver self) lifecycle_name tree
            system_properties properties deployment_location
            (driver_state w1) (fs w1) with
    | (Ok r, ds2, fs2) =>
        let w2 := {| fs := fs2; uuids := uuids w1; driver_state := ds2;
                     trace := (trace w1 ++
                               [DriverExecute lifecycle_name tree system_properties
                                  properties deployment_location])%list |} in
        if is_True (async_enabled self) then
          match __async_lifecycle_execution_completion self (ack_request_id r)
                  deployment_location w2 with
          | (Ok _, w3) => (Ok r, w3)
          | (Raise e, w3) => (Raise e, w3)
          end
        else (Ok r, w2)
    | (Raise e, ds2, fs2) =>
        (Raise e,
         {| fs := fs2; uuids := uuids w1; driver_state := ds2;
            trace := (trace w1 ++
                      [DriverExecute lifecycle_name tree system_properties
                         properties deployment_location])%list |})
    end.
Proof.
  intros Hbuild.
  unfold execute_lifecycle. unfold bind at 1.
  change (uuid4 w) with (Ok (uuids w 0), (uuid4 w).2). cbv beta iota.
  unfold bind at 1. rewrite Hbuild.
  unfold bind at 1, call_execute_lifecycle. unfold bind at 1.
  rewrite log_add_events. cbv beta iota. simpl.
  destruct (driver_execute_lifecycle (driver self) lifecycle_name tree
              system_properties properties deployment_location
              (driver_state w1) (fs w1)) as [[[r|e] ds2] fs2]; simpl;
    [|reflexivity].
  unfold bind. destruct (is_True (async_enabled self)); [|reflexivity].
  by destruct (__async_lifecycle_execution_completion _ _ _ _) as [[[]|e] w3].
Qed.

(** What registering the monitoring can do to a world. *)
Lemma async_completion_footprint self (rid loc : pyval) w :
  fs (__async_lifecycle_execution_completion self rid loc w).2 = fs w
  /\ uuids (__async_lifecycle_execution_completion self rid loc w).2 = uuids w
  /\ driver_state (__async_lifecycle_execution_completion self rid loc w).2
     = driver_state w
  /\ posted (trace (__async_lifecycle_execution_completion self rid loc w).2)
     = posted (trace w)
  /\ driver_calls (trace (__async_lifecycle_execution_completion self rid loc w).2)
     = driver_calls (trace w)
  /\ ((__async_lifecycle_execution_completion self rid loc w).1 <> Ok tt ->
      trace (__async_lifecycle_execution_completion self rid loc w).2 = trace w)
  /\ length (queued_jobs
               (trace (__async_lifecycle_execution_completion self rid loc w).2))
     <= S (length (queued_jobs (trace w))).
Proof.
  unfold __async_lifecycle_execution_completion, monitor_execution.
  destruct (lifecycle_monitor_service self) as [monitor|];
    [|simpl; split_and!; auto].
  destruct (is_None rid); [simpl; split_and!; auto|].
  destruct (is_None loc); [simpl; split_and!; auto|].
  simpl. rewrite posted_app, driver_calls_app, queued_jobs_app, length_app.
  simpl. rewrite !app_nil_r. split_and!; auto; [done | lia].
Qed.

(** X11. When the bundle is built and the driver then raises,
    [execute_lifecycle] raises the same exception: the driver was called
    once, no monitoring job is queued, and the bundle built for the call is
    not removed by the service. *)
Theorem execute_lifecycle_propagates_driver_error self
    (lifecycle_name lifecycle_scripts : string)
    (system_properties properties deployment_location : pyval)
    w tree w1 e ds2 fs2 :
  build_tree (script_file_manager self) (uuids w 0) lifecycle_scripts (uuid4 w).2
    = (Ok tree, w1) ->
  driver_execute_lifecycle (driver self) lifecycle_name tree system_properties
    properties deployment_location (driver_state w1) (fs w1)
    = (Raise e, ds2, fs2) ->
  execute_lifecycle self lifecycle_name lifecycle_scripts system_properties
    properties deployment_location w
  = (Raise e,
     {| fs := fs2; uuids := uuids w1; driver_state := ds2;
        trace := (trace w1 ++
                  [DriverExecute lifecycle_name tree system_properties
                     properties deployment_location])%list |})
  /\ queued_jobs
       (trace (execute_lifecycle self lifecycle_name lifecycle_scripts
                 system_properties properties deployment_location w).2)
     = queued_jobs (trace w)
  /\ driver_calls
       (trace (execute_lifecycle self lifecycle_name lifecycle_scripts
                 system_properties properties deployment_location w).2)
     = (driver_calls (trace w) ++
        [DriverExecute lifecycle_name tree system_properties properties
           deployment_location])%list.
Proof.
  intros Hbuild Hdrv.
  destruct (build_tree_frame (script_file_manager self) (uuids w 0)
              lifecycle_scripts (uuid4 w).2) as (evs & Htr & Hevs & _ & _).
  rewrite Hbuild in Htr. simpl in Htr.
  rewrite (execute_lifecycle_after_build _ _ _ _ _ _ _ _ _ Hbuild), Hdrv.
  simpl. split_and!; [reflexivity|..].
  - rewrite Htr, !queued_jobs_app, (queued_jobs_fs_events evs Hevs).
    simpl. by rewrite !app_nil_r.
  - rewrite Htr, !driver_calls_app, (driver_calls_fs_events evs Hevs).
    simpl. by rewrite !app_nil_r.
Qed.

(** X12. With the async flag True, when the driver has accepted the request
    but its response carries no request id (or the deployment location is
    None), [execute_lifecycle] raises the ValueError of [monitor_execution]:
    the caller sees a failure although the driver was called and its state
    is the one after the call, and no monitoring job is queued. *)
Theorem execute_lifecycle_fails_after_driver_accepts self monitor
    (lifecycle_name lifecycle_scripts : string)
    (system_properties properties deployment_location : pyval)
    w tree w1 r ds2 fs2 :
  build_tree (script_file_manager self) (uuids w 0) lifecycle_scripts (uuid4 w).2
    = (Ok tree, w1) ->
  driver_execute_lifecycle (driver self) lifecycle_name tree system_properties
    properties deployment_location (driver_state w1) (fs w1)
    = (Ok r, ds2, fs2) ->
  async_enabled self = PyBool true ->
  lifecycle_monitor_service self = Some monitor ->
  ack_request_id r = PyNone \/ deployment_location = PyNone ->
  (exists msg,
     (execute_lifecycle self lifecycle_name lifecycle_scripts system_properties
        properties deployment_location w).1 = Raise (ValueError msg))
  /\ driver_state
       (execute_lifecycle self lifecycle_name lifecycle_scripts system_properties
          properties deployment_location w).2 = ds2
  /\ driver_calls
       (trace (execute_lifecycle self lifecycle_name lifecycle_scripts
                 system_properties properties deployment_location w).2)
     = (driver_calls (trace w) ++
        [DriverExecute lifecycle_name tree system_properties properties
           deployment_location])%list
  /\ queued_jobs
       (trace (execute_lifecycle self lifecycle_name lifecycle_scripts
                 system_properties properties deployment_location w).2)
     = queued_jobs (trace w).
Proof.
  intros Hbuild Hdrv Hflag Hmon Hnone.
  destruct (build_tree_frame (script_file_manager self) (uuids w 0)
              lifecycle_scripts (uuid4 w).2) as (evs & Htr & Hevs & _ & _).
  rewrite Hbuild in Htr. simpl in Htr.
  rewrite (execute_lifecycle_after_build _ _ _ _ _ _ _ _ _ Hbuild), Hdrv.
  rewrite Hflag. simpl.
  unfold __async_lifecycle_execution_completion, monitor_execution.
  rewrite Hmon.
  assert (Hq : queued_jobs (trace w1) = queued_jobs (trace w)).
  { rewrite Htr, !queued_jobs_app, (queued_jobs_fs_events evs Hevs).
    simpl. by rewrite !app_nil_r. }
  assert (Hd : driver_calls (trace w1) = driver_calls (trace w)).
  { rewrite Htr, !driver_calls_app, (driver_calls_fs_events evs Hevs).
    simpl. by rewrite !app_nil_r. }
  destruct Hnone as [-> | ->]; simpl.
  - rewrite queued_jobs_app, driver_calls_app, Hq, Hd. simpl.
    rewrite app_nil_r. split_and!; eauto.
  - destruct (is_None (ack_request_id r)); simpl;
      rewrite queued_jobs_app, driver_calls_app, Hq, Hd; simpl;
      rewrite app_nil_r; split_and!; eauto.
Qed.


Lemma execute_lifecycle_build_raises self
    (lifecycle_name lifecycle_scripts : string)
    (system_properties properties deployment_location : pyval) w e w1 :
  build_tree (script_file_manager self) (uuids w 0) lifecycle_scripts (uuid4 w).2
    = (Raise e, w1) ->
  execute_lifecycle self lifecycle_name lifecycle_scripts system_properties
    properties deployment_location w = (Raise e, w1).
Proof.
  intros Hbuild. unfold execute_lifecycle. unfold bind at 1.
  change (uuid4 w) with (Ok (uuids w 0), (uuid4 w).2). cbv beta iota.
  unfold bind at 1. by rewrite Hbuild.
Qed.


(** X15. End to end: the job that a successful submission queues, with the
    async flag True, is one that [job_handler] accepts, and handling it
    queries the driver once, for the request id of the response the caller
    received and the deployment location of the submission. *)
Theorem submitted_job_polls_the_accepted_request self
    (lifecycle_name lifecycle_scripts : string)
    (system_properties properties deployment_location : pyval) w r w' :
  execute_lifecycle self lifecycle_name lifecycle_scripts system_properties
    properties deployment_location w = (Ok r, w') ->
  async_enabled self = PyBool true ->
  exists job,
    queued_jobs (trace w') = (queued_jobs (trace w) ++ [job])%list
    /\ forall (monitor : LifecycleExecutionMonitoringService DS) (wq : world DS),
         driver_calls (trace (job_handler monitor job wq).2)
         = (driver_calls (trace wq) ++
            [DriverGet (ack_request_id r) deployment_location])%list.
Proof.
  intros Hrun Hflag.
  destruct (build_tree_frame (script_file_manager self) (uuids w 0)
              lifecycle_scripts (uuid4 w).2) as (evs & Htr & Hevs & _ & _).
  destruct (build_tree (script_file_manager self) (uuids w 0) lifecycle_scripts
              (uuid4 w).2) as [[tree|e] w1] eqn:Hbuild; simpl in Htr.
  2: { rewrite (execute_lifecycle_build_raises _ _ _ _ _ _ _ _ _ Hbuild) in Hrun.
       discriminate. }
  assert (Hq : queued_jobs (trace w1) = queued_jobs (trace w)).
  { rewrite Htr, !queued_jobs_app, (queued_jobs_fs_events evs Hevs).
    simpl. by rewrite !app_nil_r. }
  rewrite (execute_lifecycle_after_build _ _ _ _ _ _ _ _ _ Hbuild) in Hrun.
  destruct (driver_execute_lifecycle _ _ _ _ _ _ _ _) as [[[r'|e] ds2] fs2];
    [|discriminate].
  rewrite Hflag in Hrun. cbv zeta in Hrun. simpl in Hrun.
  unfold __async_lifecycle_execution_completion, monitor_execution in Hrun.
  destruct (lifecycle_monitor_service self) as [m|]; [|discriminate].
  destruct (is_None (ack_request_id r')) eqn:Hrid; [discriminate|].
  destruct (is_None deployment_location) eqn:Hloc; [discriminate|].
  simpl in Hrun. injection Hrun as <- <-.
  exists (__create_job_definition (ack_request_id r') deployment_location).
  split.
  - simpl. rewrite !queued_jobs_app, Hq. simpl. by rewrite <- app_assoc.
  - intros monitor wq.
    assert (Hrid' : ack_request_id r' <> PyNone) by (by intros Heq; rewrite Heq in Hrid).
    assert (Hloc' : deployment_location <> PyNone) by (by intros ->).
    destruct (create_job_definition_lookup (ack_request_id r') deployment_location)
      as (_ & Hr & Hl & _).
    rewrite (job_handler_run monitor _ _ _ wq Hr Hrid' Hl Hloc').
    destruct (driver_get_lifecycle_execution _ _ _ _) as [[e|e] ds'];
      [case_bool_decide|]; simpl; by rewrite driver_calls_app.
Qed.

End ServiceFurther.

(** ** The further properties at concrete inputs *)

Section ConcreteFurther.

#[local] Existing Instance stub_pylib.

Lemma job_handler_reads_back_created_job_witness :
  driver_calls
    (trace (job_handler stub_monitor
              (__create_job_definition (PyStr "abc") stub_location)
              (stub_world [STATUS_COMPLETE])).2)
  = [DriverGet (PyStr "abc") stub_location].
Proof.
  apply (job_handler_reads_back_created_job stub_monitor (PyStr "abc")
           stub_location (stub_world [STATUS_COMPLETE])); discriminate.
Defined.

Lemma job_handler_propagates_driver_error_witness :
  job_handler (monitor_with failing_driver) stub_job (stub_world [])
    = (Raise (DriverError "unavailable"),
       add_events (set_driver_state (stub_world []) [])
         [DriverGet (PyStr "abc") stub_location])
  /\ posted (trace (job_handler (monitor_with failing_driver) stub_job
                      (stub_world [])).2)
     = posted (trace (stub_world [])).
Proof.
  apply (job_handler_propagates_driver_error (monitor_with failing_driver)
           stub_job (PyStr "abc") stub_location (stub_world [])
           (DriverError "unavailable") []);
    [reflexivity | discriminate | reflexivity | discriminate | reflexivity].
Defined.


Lemma absolute_tree_name_ignores_workspace_witness :
  __determine_extracted_path stub_file_manager "/tmp/t1" = "/tmp/t1"
  /\ build_tree stub_file_manager "/tmp/t1" "PKhello" (stub_world [])
     = build_tree {| fm_scripts_workspace := "/srv/other" |} "/tmp/t1" "PKhello"
         (stub_world []).
Proof.
  destruct (absolute_tree_name_ignores_workspace stub_file_manager
              {| fm_scripts_workspace := "/srv/other" |} "/tmp/t1" "PKhello"
              (stub_world [])) as (_ & He & Hb); [reflexivity|].
  split; [exact He | exact Hb].
Defined.




Lemma execute_lifecycle_propagates_driver_error_witness :
  (execute_lifecycle (service_with failing_driver) "install" "PKhello"
     PyNone PyNone stub_location (stub_world [])).1
    = Raise (DriverError "unavailable")
  /\ queued_jobs
       (trace (execute_lifecycle (service_with failing_driver) "install"
                 "PKhello" PyNone PyNone stub_location (stub_world [])).2) = [].
Proof.
  destruct (execute_lifecycle_propagates_driver_error
              (service_with failing_driver) "install" "PKhello" PyNone PyNone
              stub_location (stub_world [])
              {| root_path := "./scripts_workspace/u" |}
              (build_tree stub_file_manager "u" "PKhello"
                 (uuid4 (stub_world [])).2).2
              (DriverError "unavailable") []
              (fs (build_tree stub_file_manager "u" "PKhello"
                     (uuid4 (stub_world [])).2).2))
    as (Hr & Hq & _); [reflexivity | reflexivity |].
  rewrite Hr. split; [reflexivity | exact Hq].
Defined.

Lemma execute_lifecycle_fails_after_driver_accepts_witness :
  (exists msg,
     (execute_lifecycle (service_with anonymous_driver) "install" "PKhello"
        PyNone PyNone stub_location (stub_world [])).1 = Raise (ValueError msg))
  /\ queued_jobs
       (trace (execute_lifecycle (service_with anonymous_driver) "install"
                 "PKhello" PyNone PyNone stub_location (stub_world [])).2) = [].
Proof.
  destruct (execute_lifecycle_fails_after_driver_accepts
              (service_with anonymous_driver) stub_monitor "install" "PKhello"
              PyNone PyNone stub_location (stub_world [])
              {| root_path := "./scripts_workspace/u" |}
              (build_tree stub_file_manager "u" "PKhello"
                 (uuid4 (stub_world [])).2).2
              {| ack_request_id := PyNone |} []
              (fs (build_tree stub_file_manager "u" "PKhello"
                     (uuid4 (stub_world [])).2).2))
    as (Hr & _ & _ & Hq);
    [reflexivity | reflexivity | reflexivity | reflexivity | by left |].
  split; [exact Hr | exact Hq].
Defined.


Lemma submitted_job_polls_the_accepted_request_witness :
  exists job,
    queued_jobs
      (trace (execute_lifecycle (stub_service (PyBool true)) "install" "PKhello"
                PyNone PyNone stub_location (stub_world [])).2) = [job]
    /\ driver_calls (trace (job_handler stub_monitor job (stub_world [])).2)
       = [DriverGet (PyStr "abc") stub_location].
Proof.
  destruct (submitted_job_polls_the_accepted_request
              (stub_service (PyBool true)) "install" "PKhello" PyNone PyNone
              stub_location (stub_world []) {| ack_request_id := PyStr "abc" |}
              (execute_lifecycle (stub_service (PyBool true)) "install" "PKhello"
                 PyNone PyNone stub_location (stub_world [])).2)
    as (job & Hq & Hpoll); [reflexivity | reflexivity |].
  exists job. split; [exact Hq | apply (Hpoll stub_monitor (stub_world []))].
Defined.

End ConcreteFurther.
